(** * Z-Wave lights: the dimmer and the colour light of
      homeassistant/components/light/zwave.py

    A shallow embedding of [brightness_state], [ZwaveDimmer] and
    [ZwaveColorLight], and the properties of the colour codec
    ([update_properties] / [turn_on]) and of the debounced refresh
    ([_value_changed]).

    Conventions of the embedding.
    - Python [int] is [Z]; a Python [float] is idealised as an exact rational
      [Q] (no rounding error, no NaN or infinity), so [/] is [Qdiv] and
      [int(x)] on a float is truncation toward zero.
    - [str] and [bytes] are [string]; the colour payload is ASCII.
    - A method is a computation in the monad [M S] over the object it
      mutates: it returns a value or raises, and the object keeps whatever
      was assigned before the exception.
    - Calls that leave the module ([set_dimmer], [set_rgbw], [refresh],
      [update_ha_state], the logger) are recorded in a trace, each with the
      clock value at which it happened.
    - Time is counted in milliseconds; [Timer(2, f)] is a timer object
      whose callback runs 2000 ms after [start()] unless it was cancelled
      before. *)

From Stdlib Require Import ZArith QArith Qround Lqa Lia.
From Stdlib Require Import List String Ascii Bool.
From Stdlib Require Import DecimalString HexadecimalString.
Import ListNotations.

Local Open Scope string_scope.
Local Open Scope Z_scope.

(** ** Python built-ins used by the module *)

Module Py.

Inductive exn : Type :=
| ValueError
| ZeroDivisionError.

Inductive result (A : Type) : Type :=
| Return (a : A)
| Raise (e : exn).

Arguments Return {A} a.
Arguments Raise {A} e.

(** Truth value of an [int] in a condition. *)
Definition truthy (n : Z) : bool := negb (n =? 0).

(** [int(x)] for a float [x]: the integer part, rounding toward zero. *)
Definition int (x : Q) : Z :=
  if Qle_bool 0 x then Qfloor x else Qceiling x.

(** [a > b] on floats. *)
Definition gt (a b : Q) : bool := negb (Qle_bool a b).

(** [a / b] with a divisor that may be zero. *)
Definition div (a b : Q) : result Q :=
  if Qeq_bool b 0 then Raise ZeroDivisionError else Return (a / b)%Q.

(** [s[i:j]] for constant bounds [0 <= i <= j]; Python clamps the slice to
    the string. *)
Definition slice (s : string) (i j : nat) : string :=
  substring i (j - i) s.

(** The characters [int(s, 16)] strips around the number (ASCII white space). *)
Definition is_space (c : ascii) : bool :=
  let n := Z.of_nat (nat_of_ascii c) in
  ((9 <=? n) && (n <=? 13)) || (n =? 32).

Definition hex_value (c : ascii) : option Z :=
  let n := Z.of_nat (nat_of_ascii c) in
  if (48 <=? n) && (n <=? 57) then Some (n - 48)
  else if (97 <=? n) && (n <=? 102) then Some (n - 87)
  else if (65 <=? n) && (n <=? 70) then Some (n - 55)
  else None.

Fixpoint lstrip (s : string) : string :=
  match s with
  | String c s' => if is_space c then lstrip s' else s
  | EmptyString => s
  end.

Fixpoint all_space (s : string) : bool :=
  match s with
  | String c s' => is_space c && all_space s'
  | EmptyString => true
  end.

(** The digits of the number, most significant first, then only white
    space up to the end of the string. [seen] says whether a digit was
    read already: at least one is required. *)
Fixpoint hex_digits (seen : bool) (acc : Z) (s : string) : result Z :=
  match s with
  | EmptyString => if seen then Return acc else Raise ValueError
  | String c s' =>
      match hex_value c with
      | Some d => hex_digits true (16 * acc + d) s'
      | None => if seen && all_space s then Return acc else Raise ValueError
      end
  end.

(** [int(s, 16)]: optional white space, an optional sign, hexadecimal
    digits in either case, optional white space. The [0x] prefix and the
    digit separator [_] need three characters at least and the module only
    converts slices of two, so they are left out: such a string raises
    here. *)
Definition int16 (s : string) : result Z :=
  match lstrip s with
  | String "-" s' =>
      match hex_digits false 0 s' with
      | Return n => Return (- n)
      | Raise e => Raise e
      end
  | String "+" s' => hex_digits false 0 s'
  | s' => hex_digits false 0 s'
  end.

(** [format(n)] and [str(n)] for an [int]: decimal digits, [-] if negative. *)
Definition format (n : Z) : string :=
  DecimalString.NilZero.string_of_int (Z.to_int n).

(** [format(n, '02x')]: lower-case hexadecimal digits, [-] if negative,
    padded with [0] on the left to two characters. *)
Definition format_02x (n : Z) : string :=
  let s := HexadecimalString.NilZero.string_of_int (Z.to_hex_int n) in
  if (String.length s <? 2)%nat then "0" ++ s else s.

End Py.

Import Py.

(** ** Methods as computations

    [M S A] is a method body running on an object (or world) of type [S]:
    it ends with a value or an exception and leaves the state it reached. *)

Definition M (S A : Type) : Type := S -> result A * S.

Definition ret {S A} (a : A) : M S A := fun s => (Return a, s).

Definition raise {S A} (e : exn) : M S A := fun s => (Raise e, s).

Definition bind {S A B} (c : M S A) (k : A -> M S B) : M S B :=
  fun s =>
    match c s with
    | (Return a, s') => k a s'
    | (Raise e, s') => (Raise e, s')
    end.

Definition get {S} : M S S := fun s => (Return s, s).

Definition modify {S} (f : S -> S) : M S unit := fun s => (Return tt, f s).

(** A value computed by a built-in that may raise. *)
Definition lift {S A} (r : result A) : M S A := fun s => (r, s).

(** A method written for a part [T] of the state [S], run on the whole:
    how a subclass runs an inherited method on itself, and how a method of
    the object runs inside the world around it. *)
Definition zoom {S T A} (proj : S -> T) (upd : T -> S -> S) (c : M T A)
  : M S A :=
  fun s => let (r, t) := c (proj s) in (r, upd t s).

Notation "x <- c ;; k" := (bind c (fun x => k))
  (at level 61, c at next level, right associativity).
Notation "c ;; k" := (bind c (fun _ => k))
  (at level 61, right associativity).

(** [when b c]: an [if] without [else]. *)
Definition when {S} (b : bool) (c : M S unit) : M S unit :=
  if b then c else ret tt.

(** ** What the module imports

    [homeassistant.util.color] and [homeassistant.const] are not part of
    this file: the colour utilities are an interface, the two state
    constants an enumeration. *)

Class ColorUtil : Type := {
  HASS_COLOR_MIN : Q;
  HASS_COLOR_MAX : Q;
  color_temperature_mired_to_kelvin : Q -> Q;
  color_temperature_to_rgb : Q -> list Q
}.

Inductive hass_state : Type :=
| STATE_ON
| STATE_OFF.

Definition COLOR_CHANNEL_WARM_WHITE : Z := 0x01.
Definition COLOR_CHANNEL_COLD_WHITE : Z := 0x02.
Definition COLOR_CHANNEL_RED : Z := 0x04.
Definition COLOR_CHANNEL_GREEN : Z := 0x08.
Definition COLOR_CHANNEL_BLUE : Z := 0x10.

Section Temperatures.
Context {color : ColorUtil}.

Definition TEMP_MID_HASS : Q :=
  ((HASS_COLOR_MAX - HASS_COLOR_MIN) / 2 + HASS_COLOR_MIN)%Q.

Definition TEMP_WARM_HASS : Q :=
  ((HASS_COLOR_MAX - HASS_COLOR_MIN) / 3 * 2 + HASS_COLOR_MIN)%Q.

Definition TEMP_COLD_HASS : Q :=
  ((HASS_COLOR_MAX - HASS_COLOR_MIN) / 3 + HASS_COLOR_MIN)%Q.

(** [ct_to_rgb(temp)]: colour temperature in mireds to RGB. *)
Definition ct_to_rgb (temp : Q) : list Z :=
  let colorlist :=
    color_temperature_to_rgb (color_temperature_mired_to_kelvin temp) in
  map int colorlist.
End Temperatures.

(** ** The Z-Wave network as the module sees it *)

(** The node a value belongs to: what its two write calls answer. *)
Record ZWaveNode : Type := {
  set_dimmer : Z -> Z -> bool;
  set_rgbw : Z -> string -> bool
}.

(** A network value with [data] of type [D]. The entity holds a reference
    to the library's object, so [data] is what the library last stored
    there. *)
Record ZWaveValue (D : Type) : Type := {
  value_id : Z;
  instance : Z;
  data : D;
  node : ZWaveNode
}.

Arguments value_id {D} _.
Arguments instance {D} _.
Arguments data {D} _.
Arguments node {D} _.

(** Calls that leave the module. *)
Inductive effect : Type :=
| SetDimmer (id level : Z)
| SetRgbw (id : Z) (payload : string)
| Refresh (id : Z)
| UpdateHaState
| Warning (msg : string).

(** A [threading.Timer] that was started: when its callback is due, and
    whether the timer is over (the callback ran, or [cancel()] came first).
    [isAlive()] is [negb finished]. *)
Record Timer : Type := {
  fire_at : Z;
  finished : bool
}.

(** The entity [self] in its surroundings: the clock, the timer objects
    created so far (a reference to one is its index) and the trace of
    outside calls, oldest first. *)
Record world (Self : Type) : Type := {
  self : Self;
  clock : Z;
  timers : list Timer;
  trace : list (Z * effect)
}.

Arguments self {Self} _.
Arguments clock {Self} _.
Arguments timers {Self} _.
Arguments trace {Self} _.

Definition with_self {Self} (x : Self) (w : world Self) : world Self :=
  {| self := x; clock := clock w; timers := timers w; trace := trace w |}.

Definition with_timers {Self} (ts : list Timer) (w : world Self)
  : world Self :=
  {| self := self w; clock := clock w; timers := ts; trace := trace w |}.

(** A method that touches the object only. *)
Definition on_self {Self A} (c : M Self A) : M (world Self) A :=
  zoom self with_self c.

(** An outside call, recorded at the current time. *)
Definition emit {Self} (e : effect) : M (world Self) unit :=
  modify (fun w =>
    {| self := self w; clock := clock w; timers := timers w;
       trace := trace w ++ [(clock w, e)] |}).

(** ** [brightness_state] and [ZwaveDimmer] *)

(** [brightness_state(value)]: the brightness and the state. *)
Definition brightness_state (value : ZWaveValue Z) : Q * hass_state :=
  if data value >? 0
  then ((inject_Z (data value) / 99) * 255, STATE_ON)%Q
  else (255%Q, STATE_OFF).

(** The keyword arguments of [turn_on]: the three keys the module looks up. *)
Record kwargs : Type := {
  ATTR_BRIGHTNESS : option Q;
  ATTR_COLOR_TEMP : option Q;
  ATTR_RGB_COLOR : option (list Z)
}.

Module ZwaveDimmer.

(** The attributes of a constructed dimmer. [__init__] assigns [None]
    to [_brightness] and [_state] and calls [update_properties] at once,
    so both hold a value in every object that exists. [_timer] is [None]
    or a reference to a timer of the world. *)
Record obj : Type := {
  _value : ZWaveValue Z;
  _brightness : Q;
  _state : hass_state;
  _refreshing : bool;
  _timer : option nat
}.

Definition set_value (v : ZWaveValue Z) (o : obj) : obj :=
  {| _value := v; _brightness := _brightness o; _state := _state o;
     _refreshing := _refreshing o; _timer := _timer o |}.

Definition set_brightness (b : Q) (o : obj) : obj :=
  {| _value := _value o; _brightness := b; _state := _state o;
     _refreshing := _refreshing o; _timer := _timer o |}.

Definition set_state (s : hass_state) (o : obj) : obj :=
  {| _value := _value o; _brightness := _brightness o; _state := s;
     _refreshing := _refreshing o; _timer := _timer o |}.

Definition set_refreshing (b : bool) (o : obj) : obj :=
  {| _value := _value o; _brightness := _brightness o; _state := _state o;
     _refreshing := b; _timer := _timer o |}.

Definition set_timer (r : option nat) (o : obj) : obj :=
  {| _value := _value o; _brightness := _brightness o; _state := _state o;
     _refreshing := _refreshing o; _timer := r |}.

(** [update_properties]: brightness and state from the value. *)
Definition update_properties : M obj unit :=
  o <- get ;;
  let (brightness, state) := brightness_state (_value o) in
  modify (set_brightness brightness) ;;
  modify (set_state state).

Definition __init__ (value : ZWaveValue Z) : obj :=
  let (brightness, state) := brightness_state value in
  {| _value := value; _brightness := brightness; _state := state;
     _refreshing := false; _timer := None |}.

Definition brightness (o : obj) : Q := _brightness o.

Definition is_on (o : obj) : bool :=
  match _state o with STATE_ON => true | STATE_OFF => false end.

(** [self._value.node.set_dimmer(id, level)]: the call is recorded and
    the node answers. *)
Definition call_set_dimmer (level : Z) : M (world obj) bool :=
  w <- get ;;
  let v := _value (self w) in
  emit (SetDimmer (value_id v) level) ;;
  ret (set_dimmer (node v) (value_id v) level).

Definition turn_on (kw : kwargs) : M (world obj) unit :=
  match ATTR_BRIGHTNESS kw with
  | Some b => on_self (modify (set_brightness b))
  | None => ret tt
  end ;;
  w <- get ;;
  let brightness := int ((_brightness (self w) / 255) * 99)%Q in
  ok <- call_set_dimmer brightness ;;
  when ok (on_self (modify (set_state STATE_ON))).

Definition turn_off : M (world obj) unit :=
  ok <- call_set_dimmer 0 ;;
  when ok (on_self (modify (set_state STATE_OFF))).

(** *** Timers *)

Definition isAlive (r : nat) (ts : list Timer) : bool :=
  match nth_error ts r with
  | Some tm => negb (finished tm)
  | None => false
  end.

Definition finish (tm : Timer) : Timer :=
  {| fire_at := fire_at tm; finished := true |}.

Fixpoint finish_at (r : nat) (ts : list Timer) : list Timer :=
  match ts, r with
  | [], _ => []
  | tm :: ts', O => finish tm :: ts'
  | tm :: ts', S r' => tm :: finish_at r' ts'
  end.

(** [timer.cancel()] *)
Definition cancel (r : nat) : M (world obj) unit :=
  modify (fun w => with_timers (finish_at r (timers w)) w).

(** [Timer(interval, callback)] followed by [start()]: a new timer
    object, due [interval] from now; the result is the reference. *)
Definition start_timer (interval : Z) : M (world obj) nat :=
  w <- get ;;
  let tm := {| fire_at := clock w + interval; finished := false |} in
  modify (with_timers (timers w ++ [tm])) ;;
  ret (List.length (timers w)).

(** The timer callback of [_value_changed]. *)
Definition _refresh_value : M (world obj) unit :=
  on_self (modify (set_refreshing true)) ;;
  w <- get ;;
  emit (Refresh (value_id (_value (self w)))).

(** [_value_changed(value)]: called when a value has changed on the
    network. *)
Definition _value_changed (value : ZWaveValue Z) : M (world obj) unit :=
  w <- get ;;
  if negb (value_id (_value (self w)) =? value_id value) then ret tt
  else
    (if _refreshing (self w) then
       on_self (modify (set_refreshing false)) ;;
       on_self update_properties
     else
       match _timer (self w) with
       | Some r => when (isAlive r (timers w)) (cancel r)
       | None => ret tt
       end ;;
       r <- start_timer 2000 ;;
       on_self (modify (set_timer (Some r)))) ;;
    emit UpdateHaState.

(** *** The world around the handler *)

Definition set_clock (t : Z) (w : world obj) : world obj :=
  {| self := self w; clock := Z.max (clock w) t; timers := timers w;
     trace := trace w |}.

(** The timers that are due by [t] run their callback, each at its own
    time, oldest first, and are over. *)
Fixpoint run_due (t : Z) (ts : list Timer) (w : world obj)
  : list Timer * world obj :=
  match ts with
  | [] => ([], w)
  | tm :: ts' =>
      if negb (finished tm) && (fire_at tm <=? t) then
        let w1 := snd (_refresh_value (set_clock (fire_at tm) w)) in
        let (ts2, w2) := run_due t ts' w1 in
        (finish tm :: ts2, w2)
      else
        let (ts2, w2) := run_due t ts' w in
        (tm :: ts2, w2)
  end.

(** Time passes until [t]. *)
Definition advance_to (t : Z) (w : world obj) : world obj :=
  let (ts, w') := run_due t (timers w) w in
  set_clock t (with_timers ts w').

(** The network library reports a change of [value] at time [t]: it has
    stored the new data in the value object, which is the object
    [self._value] refers to when the ids agree, and calls the handler. *)
Definition notify (t : Z) (value : ZWaveValue Z) (w : world obj)
  : world obj :=
  let w1 := advance_to t w in
  let w2 :=
    if value_id (_value (self w1)) =? value_id value
    then with_self (set_value value (self w1)) w1
    else w1 in
  snd (_value_changed value w2).

(** A sequence of change reports, each with its time. *)
Fixpoint run (evs : list (Z * ZWaveValue Z)) (w : world obj) : world obj :=
  match evs with
  | [] => w
  | (t, value) :: evs' => run evs' (notify t value w)
  end.

(** The refresh requests of a trace, with their times. *)
Definition refreshes (tr : list (Z * effect)) : list (Z * effect) :=
  filter (fun e => match snd e with Refresh _ => true | _ => false end) tr.

End ZwaveDimmer.

(** ** [ZwaveColorLight] *)

Module ZwaveColorLight.
Section WithColorUtil.
Context {color : ColorUtil}.

(** The attributes the subclass adds to those of the dimmer ([super]).
    [_color_channels] is assigned by [update_properties] before
    [__init__] returns, like [_brightness]. *)
Record obj : Type := {
  super : ZwaveDimmer.obj;
  _value_color : ZWaveValue string;
  _value_color_channels : ZWaveValue Z;
  _color_channels : Z;
  _rgb : option (list Z);
  _ct : option Q
}.

Definition set_super (d : ZwaveDimmer.obj) (o : obj) : obj :=
  {| super := d; _value_color := _value_color o;
     _value_color_channels := _value_color_channels o;
     _color_channels := _color_channels o; _rgb := _rgb o; _ct := _ct o |}.

Definition set_color_channels (c : Z) (o : obj) : obj :=
  {| super := super o; _value_color := _value_color o;
     _value_color_channels := _value_color_channels o;
     _color_channels := c; _rgb := _rgb o; _ct := _ct o |}.

Definition set_rgb (rgb : option (list Z)) (o : obj) : obj :=
  {| super := super o; _value_color := _value_color o;
     _value_color_channels := _value_color_channels o;
     _color_channels := _color_channels o; _rgb := rgb; _ct := _ct o |}.

Definition set_ct (ct : option Q) (o : obj) : obj :=
  {| super := super o; _value_color := _value_color o;
     _value_color_channels := _value_color_channels o;
     _color_channels := _color_channels o; _rgb := _rgb o; _ct := ct |}.

(** [channel & MASK] as a condition. *)
Definition has (channels mask : Z) : bool := truthy (Z.land channels mask).

(** [self._ct = ct] followed by [self._rgb = ct_to_rgb(self._ct)]. *)
Definition assign_ct_and_rgb (ct : Q) : M obj unit :=
  modify (set_ct (Some ct)) ;;
  modify (set_rgb (Some (ct_to_rgb ct))).

(** A white channel of the data string: two hexadecimal digits at
    [index] if the channel is present, and the index after it. *)
Definition white_channel (present : bool) (data : string) (index : nat)
  : M obj (Z * nat) :=
  if present then
    white <- lift (int16 (slice data index (index + 2))) ;;
    ret (white, (index + 2)%nat)
  else ret (0, index).

(** [update_properties]: internal properties from the zwave values. *)
Definition update_properties : M obj unit :=
  zoom super set_super ZwaveDimmer.update_properties ;;
  o <- get ;;
  modify (set_color_channels (data (_value_color_channels o))) ;;
  let data := data (_value_color o) in
  r <- lift (int16 (slice data 1 3)) ;;
  g <- lift (int16 (slice data 3 5)) ;;
  b <- lift (int16 (slice data 5 7)) ;;
  modify (set_rgb (Some [r; g; b])) ;;
  let index := 7%nat in
  o <- get ;;
  let channels := _color_channels o in
  ww <- white_channel (has channels COLOR_CHANNEL_WARM_WHITE) data index ;;
  let (warm_white, index) := ww in
  cw <- white_channel (has channels COLOR_CHANNEL_COLD_WHITE) data index ;;
  let (cold_white, index) := cw in
  (if has channels COLOR_CHANNEL_WARM_WHITE
      && has channels COLOR_CHANNEL_COLD_WHITE then
     if warm_white >? 0 then assign_ct_and_rgb TEMP_WARM_HASS
     else if cold_white >? 0 then assign_ct_and_rgb TEMP_COLD_HASS
     else modify (set_ct (Some TEMP_MID_HASS))
   else if has channels COLOR_CHANNEL_WARM_WHITE then
     assign_ct_and_rgb
       (HASS_COLOR_MIN + (HASS_COLOR_MAX - HASS_COLOR_MIN)
                         * (inject_Z warm_white / 255))%Q
   else if has channels COLOR_CHANNEL_COLD_WHITE then
     assign_ct_and_rgb
       (HASS_COLOR_MIN + (HASS_COLOR_MAX - HASS_COLOR_MIN)
                         * ((255 - inject_Z cold_white) / 255))%Q
   else ret tt) ;;
  when (negb (has channels COLOR_CHANNEL_RED
              || has channels COLOR_CHANNEL_GREEN
              || has channels COLOR_CHANNEL_BLUE))
       (modify (set_rgb None)).

(** The loops of [__init__] keep the last value that qualifies. *)
Definition last_match {D} (p : ZWaveValue D -> bool)
  (values : list (ZWaveValue D)) : option (ZWaveValue D) :=
  fold_left (fun found v => if p v then Some v else found) values None.

(** [__init__(value)], given the colour values of the node
    ([get_rgbbulbs()]) and its colour-channel values ([get_values(...)]).
    Without a colour value of the same instance, or without a channel
    value, it raises [ValueError]; so it does when the first
    [update_properties] raises. *)
Definition __init__ (value : ZWaveValue Z)
  (rgbbulbs : list (ZWaveValue string))
  (channel_values : list (ZWaveValue Z)) : result obj :=
  match last_match (fun vc => instance value =? instance vc) rgbbulbs with
  | None => Raise ValueError
  | Some value_color =>
      match last_match (fun _ => true) channel_values with
      | None => Raise ValueError
      | Some value_color_channels =>
          let o := {| super := ZwaveDimmer.__init__ value;
                      _value_color := value_color;
                      _value_color_channels := value_color_channels;
                      _color_channels := data value_color_channels;
                      _rgb := None; _ct := None |} in
          match update_properties o with
          | (Return _, o') => Return o'
          | (Raise e, _) => Raise e
          end
      end
  end.

Definition rgb_color (o : obj) : option (list Z) := _rgb o.

Definition color_temp (o : obj) : option Q := _ct o.

(** An inherited method runs on the dimmer part of the object. *)
Definition as_dimmer {A} (c : M (world ZwaveDimmer.obj) A)
  : M (world obj) A :=
  zoom (fun w => {| self := super (self w); clock := clock w;
                    timers := timers w; trace := trace w |})
       (fun wd w => {| self := set_super (self wd) (self w);
                       clock := clock wd; timers := timers wd;
                       trace := trace wd |})
       c.

(** The colour branches of [turn_on]: the payload, if one is built. *)
Definition build_rgbw (kw : kwargs) : M (world obj) (option string) :=
  w <- get ;;
  let channels := _color_channels (self w) in
  match ATTR_COLOR_TEMP kw with
  | Some color_temp =>
      if has channels COLOR_CHANNEL_WARM_WHITE
         && has channels COLOR_CHANNEL_COLD_WHITE then
        if gt color_temp TEMP_MID_HASS then
          on_self (modify (set_ct (Some TEMP_WARM_HASS))) ;;
          ret (Some "#000000FF00")
        else
          on_self (modify (set_ct (Some TEMP_COLD_HASS))) ;;
          ret (Some "#00000000FF")
      else if has channels COLOR_CHANNEL_WARM_WHITE then
        q <- lift (div (color_temp - HASS_COLOR_MIN)
                       (HASS_COLOR_MAX - HASS_COLOR_MIN)) ;;
        let temp := (q * 255)%Q in
        ret (Some ("#000000" ++ format (int temp))%string)
      else if has channels COLOR_CHANNEL_COLD_WHITE then
        q <- lift (div (color_temp - HASS_COLOR_MIN)
                       (HASS_COLOR_MAX - HASS_COLOR_MIN)) ;;
        let temp := (255 - q * 255)%Q in
        ret (Some ("#000000" ++ format (int temp))%string)
      else ret None
  | None =>
      match ATTR_RGB_COLOR kw with
      | Some rgb =>
          on_self (modify (set_rgb (Some rgb))) ;;
          ret (Some ("#" ++ String.concat "" (map format_02x rgb)
                         ++ "0000")%string)
      | None => ret None
      end
  end.

(** [turn_on] with its keyword arguments. *)
Definition turn_on (kw : kwargs) : M (world obj) unit :=
  rgbw <- build_rgbw kw ;;
  match rgbw with
  | None => emit (Warning "rgbw string was not generated for turn_on")
  | Some payload =>
      w <- get ;;
      emit (SetRgbw (value_id (_value_color (self w))) payload)
  end ;;
  as_dimmer (ZwaveDimmer.turn_on kw).

End WithColorUtil.
End ZwaveColorLight.

(** ** Concrete data to evaluate the definitions on *)

(** An instance of the colour utilities: bounds of 154 and 500 mireds,
    kelvin = 1000000 / mired, and a stand-in with fractional components for
    the colour approximation. *)
Definition sample_color_util : ColorUtil := {|
  HASS_COLOR_MIN := 154;
  HASS_COLOR_MAX := 500;
  color_temperature_mired_to_kelvin := fun mired => (1000000 / mired)%Q;
  color_temperature_to_rgb := fun kelvin =>
    [255%Q; (kelvin / 20)%Q; (kelvin / 40)%Q]
|}.

(** A node that accepts every write, and one that refuses every write. *)
Definition node_up : ZWaveNode :=
  {| set_dimmer := fun _ _ => true; set_rgbw := fun _ _ => true |}.

Definition node_down : ZWaveNode :=
  {| set_dimmer := fun _ _ => false; set_rgbw := fun _ _ => false |}.

(** The dimmer value (id 1), the colour value (id 2) and the colour-channel
    value (id 3) of one instance of a node. *)
Definition dimmer_value (nd : ZWaveNode) (level : Z) : ZWaveValue Z :=
  {| value_id := 1; instance := 1; data := level; node := nd |}.

Definition color_value (nd : ZWaveNode) (payload : string)
  : ZWaveValue string :=
  {| value_id := 2; instance := 1; data := payload; node := nd |}.

Definition channels_value (nd : ZWaveNode) (channels : Z) : ZWaveValue Z :=
  {| value_id := 3; instance := 1; data := channels; node := nd |}.

(** A world at time 0 with no timer and an empty trace. *)
Definition world_of {Self} (o : Self) : world Self :=
  {| self := o; clock := 0; timers := []; trace := [] |}.

(** The colour light of such a node as [__init__] has assembled it when it
    calls [update_properties] for the first time: the dimmer part is set
    up, no colour is decoded yet. The dimmer value is at level 99. *)
Definition under_construction (nd : ZWaveNode) (channels : Z)
  (payload : string) : ZwaveColorLight.obj :=
  {| ZwaveColorLight.super := ZwaveDimmer.__init__ (dimmer_value nd 99);
     ZwaveColorLight._value_color := color_value nd payload;
     ZwaveColorLight._value_color_channels := channels_value nd channels;
     ZwaveColorLight._color_channels := channels;
     ZwaveColorLight._rgb := None;
     ZwaveColorLight._ct := None |}.

(** ** Vocabulary of the specification *)

(** The payloads written with [set_rgbw] in a trace, oldest first. *)
Definition rgbw_payloads (tr : list (Z * effect)) : list string :=
  flat_map (fun e => match snd e with
                     | SetRgbw _ payload => [payload]
                     | _ => []
                     end) tr.

(** The levels written with [set_dimmer] in a trace, oldest first. *)
Definition dimmer_levels (tr : list (Z * effect)) : list Z :=
  flat_map (fun e => match snd e with
                     | SetDimmer _ level => [level]
                     | _ => []
                     end) tr.

(** The level [ZwaveDimmer.turn_on] writes: the requested brightness, or
    the cached one, on the scale 0..99. *)
Definition dimmer_level (kw : kwargs) (cached : Q) : Z :=
  let b := match ATTR_BRIGHTNESS kw with Some b => b | None => cached end in
  int ((b / 255) * 99)%Q.

(** A byte as two lower-case hexadecimal digits. *)
Definition hex_digit (n : Z) : ascii :=
  ascii_of_nat (Z.to_nat (if n <? 10 then 48 + n else 87 + n)).

Definition hex2 (n : Z) : string :=
  String (hex_digit (n / 16)) (String (hex_digit (n mod 16)) EmptyString).

(** The same with capital letters, as the specification writes payloads. *)
Definition HEX_digit (n : Z) : ascii :=
  ascii_of_nat (Z.to_nat (if n <? 10 then 48 + n else 55 + n)).

Definition HEX2 (n : Z) : string :=
  String (HEX_digit (n / 16)) (String (HEX_digit (n mod 16)) EmptyString).

(** [round(x)]: the nearest integer, a tie going to the even one. *)
Definition round (x : Q) : Z :=
  let f := Qfloor x in
  let frac := (x - inject_Z f)%Q in
  if Qle_bool frac (1 # 2)
  then (if Qeq_bool frac (1 # 2) then (if Z.even f then f else f + 1) else f)
  else f + 1.

(** The number of white channels among the capability bits. *)
Definition white_count (channels : Z) : nat :=
  (if ZwaveColorLight.has channels COLOR_CHANNEL_WARM_WHITE then 1 else 0)
  + (if ZwaveColorLight.has channels COLOR_CHANNEL_COLD_WHITE then 1 else 0).

Definition has_white (channels : Z) : bool :=
  ZwaveColorLight.has channels COLOR_CHANNEL_WARM_WHITE
  || ZwaveColorLight.has channels COLOR_CHANNEL_COLD_WHITE.

Definition has_rgb (channels : Z) : bool :=
  ZwaveColorLight.has channels COLOR_CHANNEL_RED
  || ZwaveColorLight.has channels COLOR_CHANNEL_GREEN
  || ZwaveColorLight.has channels COLOR_CHANNEL_BLUE.

(** The states of the debounced refresher, read off a world: a refresh is
    in flight, or a timer is alive, or neither. *)
Inductive refresher_state : Type :=
| IDLE
| TIMER_PENDING
| REFRESHING.

Definition any_alive (ts : list Timer) : bool :=
  existsb (fun tm => negb (finished tm)) ts.

Definition refresher_state_of (w : world ZwaveDimmer.obj) : refresher_state :=
  if ZwaveDimmer._refreshing (self w) then REFRESHING
  else if any_alive (timers w) then TIMER_PENDING
  else IDLE.

(** Keyword arguments of the calls used below. *)
Definition no_kwargs : kwargs :=
  {| ATTR_BRIGHTNESS := None; ATTR_COLOR_TEMP := None;
     ATTR_RGB_COLOR := None |}.

Definition kw_brightness (b : Q) : kwargs :=
  {| ATTR_BRIGHTNESS := Some b; ATTR_COLOR_TEMP := None;
     ATTR_RGB_COLOR := None |}.

Definition kw_color_temp (t : Q) : kwargs :=
  {| ATTR_BRIGHTNESS := None; ATTR_COLOR_TEMP := Some t;
     ATTR_RGB_COLOR := None |}.

Definition kw_rgb (rgb : list Z) : kwargs :=
  {| ATTR_BRIGHTNESS := None; ATTR_COLOR_TEMP := None;
     ATTR_RGB_COLOR := Some rgb |}.

(** The dimmer after [turn_on] has looked up the brightness. *)
Definition requested_brightness (kw : kwargs) (o : ZwaveDimmer.obj)
  : ZwaveDimmer.obj :=
  match ATTR_BRIGHTNESS kw with
  | Some b => ZwaveDimmer.set_brightness b o
  | None => o
  end.

(** *** The encoder as the specification words it

    These follow the sentences of the specification, not the code; the
    properties below compare them with [turn_on]. *)

Section AsStated.
Context {color : ColorUtil}.

(** Both white channels: [FF00] after the prefix if the target is at most
    MID, else [00FF]. *)
Definition two_white_payload_as_stated (target : Q) : string :=
  "#000000" ++ (if Qle_bool target TEMP_MID_HASS then "FF00" else "00FF").

(** One white channel: one byte of two hexadecimal digits after the
    prefix, the rounded channel value. *)
Definition one_white_payload_as_stated (channels : Z) (target : Q)
  : string :=
  let x := ((target - HASS_COLOR_MIN)
            / (HASS_COLOR_MAX - HASS_COLOR_MIN) * 255)%Q in
  "#000000"
  ++ HEX2 (round (if ZwaveColorLight.has channels COLOR_CHANNEL_WARM_WHITE
                  then x else (255 - x)%Q)).

(** Explicit RGB: the three bytes, then one [00] per white channel of
    the device. *)
Definition rgb_payload_as_stated (channels r g b : Z) : string :=
  "#" ++ HEX2 r ++ HEX2 g ++ HEX2 b
      ++ String.concat "" (repeat "00" (white_count channels)).
End AsStated.

(** *** Abbreviations for [ZwaveColorLight.turn_on] *)

Section TurnOnVocabulary.
Context {color : ColorUtil}.
Import ZwaveColorLight.

(** The two writes of a [turn_on] that built [payload]. *)
Definition writes (w : world obj) (kw : kwargs) (payload : string)
  : list (Z * effect) :=
  [(clock w, SetRgbw (value_id (_value_color (self w))) payload);
   (clock w, SetDimmer (value_id (ZwaveDimmer._value (super (self w))))
               (dimmer_level kw (ZwaveDimmer._brightness (super (self w)))))].

(** The channel value of the one-white-channel branches: the integer part
    of the linear map of the target onto 0..255, inverted for cold
    white. *)
Definition white_level (channels : Z) (T : Q) : Z :=
  let q := ((T - HASS_COLOR_MIN) / (HASS_COLOR_MAX - HASS_COLOR_MIN))%Q in
  if has channels COLOR_CHANNEL_WARM_WHITE
  then int (q * 255)%Q
  else int (255 - q * 255)%Q.
End TurnOnVocabulary.

(** *** The sentences of the specification as propositions

    Each one is a sentence about one call, worded as the specification has
    it. *)

Section ClaimsAsStated.
Context {color : ColorUtil}.
Import ZwaveColorLight.

Definition encode_two_white_as_stated (w : world obj) (kw : kwargs) (T : Q)
  : Prop :=
  ATTR_COLOR_TEMP kw = Some T ->
  has (_color_channels (self w)) COLOR_CHANNEL_WARM_WHITE = true ->
  has (_color_channels (self w)) COLOR_CHANNEL_COLD_WHITE = true ->
  rgbw_payloads (trace (snd (turn_on kw w)))
  = (rgbw_payloads (trace w) ++ [two_white_payload_as_stated T])%list.

Definition encode_one_white_as_stated (w : world obj) (kw : kwargs) (T : Q)
  : Prop :=
  ATTR_COLOR_TEMP kw = Some T ->
  white_count (_color_channels (self w)) = 1%nat ->
  rgbw_payloads (trace (snd (turn_on kw w)))
  = (rgbw_payloads (trace w)
       ++ [one_white_payload_as_stated (_color_channels (self w)) T])%list.

Definition encode_rgb_as_stated (w : world obj) (kw : kwargs) (r g b : Z)
  : Prop :=
  ATTR_COLOR_TEMP kw = None ->
  ATTR_RGB_COLOR kw = Some [r; g; b] ->
  rgbw_payloads (trace (snd (turn_on kw w)))
  = (rgbw_payloads (trace w)
       ++ [rgb_payload_as_stated (_color_channels (self w)) r g b])%list.

(** A failed write leaves brightness, state, rgb and colour temperature
    as they were. *)
Definition failed_write_as_stated (w : world obj) (kw : kwargs) : Prop :=
  (forall id level,
     set_dimmer (node (ZwaveDimmer._value (super (self w)))) id level
     = false) ->
  (forall id payload,
     set_rgbw (node (_value_color (self w))) id payload = false) ->
  let o' := self (snd (turn_on kw w)) in
  (ZwaveDimmer._brightness (super o')
   == ZwaveDimmer._brightness (super (self w)))%Q
  /\ ZwaveDimmer._state (super o') = ZwaveDimmer._state (super (self w))
  /\ _rgb o' = _rgb (self w)
  /\ _ct o' = _ct (self w).

(** Without temperature and RGB the call fails and nothing is written. *)
Definition encode_nothing_as_stated (w : world obj) (kw : kwargs) : Prop :=
  ATTR_COLOR_TEMP kw = None ->
  ATTR_RGB_COLOR kw = None ->
  (exists e, fst (turn_on kw w) = Raise e)
  /\ trace (snd (turn_on kw w)) = trace w.

(** The decision table with both white channels, for a payload whose
    five bytes are [r g b ww cw]. *)
Definition decode_two_white_as_stated (o : obj) (r g b ww cw : Z) : Prop :=
  let channels := data (_value_color_channels o) in
  let payload := data (_value_color o) in
  has channels COLOR_CHANNEL_WARM_WHITE = true ->
  has channels COLOR_CHANNEL_COLD_WHITE = true ->
  int16 (slice payload 1 3) = Return r ->
  int16 (slice payload 3 5) = Return g ->
  int16 (slice payload 5 7) = Return b ->
  int16 (slice payload 7 9) = Return ww ->
  int16 (slice payload 9 11) = Return cw ->
  let o' := snd (update_properties o) in
  (0 < ww ->
   color_temp o' = Some TEMP_WARM_HASS
   /\ rgb_color o' = Some (ct_to_rgb TEMP_WARM_HASS))
  /\ (ww <= 0 -> 0 < cw ->
      color_temp o' = Some TEMP_COLD_HASS
      /\ rgb_color o' = Some (ct_to_rgb TEMP_COLD_HASS))
  /\ (ww <= 0 -> cw <= 0 ->
      color_temp o' = Some TEMP_MID_HASS
      /\ rgb_color o' = Some [r; g; b]).
End ClaimsAsStated.

(** *** The debounced refresher *)

(** The worlds a dimmer can be in: created by [__init__], then change
    reports, the passing of time and the two commands, in any order. *)
Inductive reachable : world ZwaveDimmer.obj -> Prop :=
| reach_init (value : ZWaveValue Z) (t0 : Z) :
    reachable {| self := ZwaveDimmer.__init__ value; clock := t0;
                 timers := []; trace := [] |}
| reach_notify (t : Z) (value : ZWaveValue Z) (w : world ZwaveDimmer.obj) :
    reachable w -> reachable (ZwaveDimmer.notify t value w)
| reach_advance (t : Z) (w : world ZwaveDimmer.obj) :
    reachable w -> reachable (ZwaveDimmer.advance_to t w)
| reach_turn_on (kw : kwargs) (w : world ZwaveDimmer.obj) :
    reachable w -> reachable (snd (ZwaveDimmer.turn_on kw w))
| reach_turn_off (w : world ZwaveDimmer.obj) :
    reachable w -> reachable (snd (ZwaveDimmer.turn_off w)).

Definition all_finished (ts : list Timer) : Prop :=
  Forall (fun tm => finished tm = true) ts.

(** The last timer created is alive and due at [due], it is the one
    [_timer] refers to, every older timer is over and no refresh is in
    flight. *)
Definition timer_pending (due : Z) (w : world ZwaveDimmer.obj) : Prop :=
  exists ts,
    timers w = (ts ++ [{| fire_at := due; finished := false |}])%list
    /\ all_finished ts
    /\ ZwaveDimmer._timer (self w) = Some (List.length ts)
    /\ ZwaveDimmer._refreshing (self w) = false.

(** At most one timer is alive, and none while a refresh is in flight. *)
Definition one_timer (w : world ZwaveDimmer.obj) : Prop :=
  all_finished (timers w) \/ exists due, timer_pending due w.

(** Change reports of the value [id] that follow one at time [t], each
    less than 2000 ms after the one before. *)
Fixpoint burst_after (id t : Z) (evs : list (Z * ZWaveValue Z)) : Prop :=
  match evs with
  | [] => True
  | (t', value) :: evs' =>
      t <= t' < t + 2000 /\ value_id value = id /\ burst_after id t' evs'
  end.

(** The time of the last report of a burst that began at [t]. *)
Fixpoint last_time (t : Z) (evs : list (Z * ZWaveValue Z)) : Z :=
  match evs with
  | [] => t
  | (t', _) :: evs' => last_time t' evs'
  end.

(** *** Concrete lights and dimmers *)

(** The light [__init__] returns for such a node, given the instance
    of the colour utilities. *)
Definition new_light (color : ColorUtil) (nd : ZWaveNode) (channels : Z)
  (payload : string) : ZwaveColorLight.obj :=
  snd (@ZwaveColorLight.update_properties color
         (under_construction nd channels payload)).

(** A light with all five channels, one with warm white and RGB and one
    with RGB only, each in a world of its own; [light_down] is the first
    one on a node that refuses every write. *)
Definition light_all : world ZwaveColorLight.obj :=
  world_of (new_light sample_color_util node_up 31 "#1A2B3C0000").

Definition light_warm_rgb : world ZwaveColorLight.obj :=
  world_of (new_light sample_color_util node_up 29 "#00000080").

Definition light_rgb : world ZwaveColorLight.obj :=
  world_of (new_light sample_color_util node_up 28 "#1A2B3C").

Definition light_down : world ZwaveColorLight.obj :=
  world_of (new_light sample_color_util node_down 31 "#1A2B3C0000").

(** A dimmer that saw a change report at time 0 and whose timer ran at
    2000: its refresh is in flight. *)
Definition dimmer_refreshing : world ZwaveDimmer.obj :=
  ZwaveDimmer.advance_to 2000
    (ZwaveDimmer.notify 0 (dimmer_value node_up 50)
       {| self := ZwaveDimmer.__init__ (dimmer_value node_up 40);
          clock := 0; timers := []; trace := [] |}).

(** A dimmer just created. *)
Definition dimmer_new : world ZwaveDimmer.obj :=
  {| self := ZwaveDimmer.__init__ (dimmer_value node_up 40);
     clock := 0; timers := []; trace := [] |}.

(** ** Further vocabulary: timers, decoding and set-up *)

(** The number of timers that are alive. *)
Definition alive_count (ts : list Timer) : nat :=
  List.length (filter (fun tm => negb (finished tm)) ts).

(** Time passes through the given instants, nothing else happens. *)
Definition pass_time (times : list Z) (w : world ZwaveDimmer.obj)
  : world ZwaveDimmer.obj :=
  fold_left (fun w t => ZwaveDimmer.advance_to t w) times w.

(** Every refresh request in the trace and every timer still alive has a
    timer object of its own. *)
Definition refresh_budget (w : world ZwaveDimmer.obj) : Prop :=
  (List.length (ZwaveDimmer.refreshes (trace w)) + alive_count (timers w)
   <= List.length (timers w))%nat.

(** The keyword arguments without the RGB value. *)
Definition without_rgb (kw : kwargs) : kwargs :=
  {| ATTR_BRIGHTNESS := ATTR_BRIGHTNESS kw;
     ATTR_COLOR_TEMP := ATTR_COLOR_TEMP kw;
     ATTR_RGB_COLOR := None |}.

(** The network library stores a new data string in the colour value the
    light refers to. *)
Definition set_color_data (payload : string) (o : ZwaveColorLight.obj)
  : ZwaveColorLight.obj :=
  {| ZwaveColorLight.super := ZwaveColorLight.super o;
     ZwaveColorLight._value_color :=
       {| value_id := value_id (ZwaveColorLight._value_color o);
          instance := instance (ZwaveColorLight._value_color o);
          data := payload;
          node := node (ZwaveColorLight._value_color o) |};
     ZwaveColorLight._value_color_channels :=
       ZwaveColorLight._value_color_channels o;
     ZwaveColorLight._color_channels := ZwaveColorLight._color_channels o;
     ZwaveColorLight._rgb := ZwaveColorLight._rgb o;
     ZwaveColorLight._ct := ZwaveColorLight._ct o |}.

(** The white byte [update_properties] converts at [index]: none, and 0,
    for a channel the device does not declare. *)
Definition white_read (present : bool) (payload : string) (index : nat)
  : result Z :=
  if present then int16 (slice payload index (index + 2)) else Return 0.

(** Where the cold-white byte starts: after the warm-white byte if there
    is one. *)
Definition cold_index (channels : Z) : nat :=
  if ZwaveColorLight.has channels COLOR_CHANNEL_WARM_WHITE
  then 9%nat else 7%nat.

Section Decoded.
Context {color : ColorUtil}.
Import ZwaveColorLight.

(** The colour temperature [update_properties] ends with, given the two
    white bytes and the temperature before the call. *)
Definition decoded_ct (channels ww cw : Z) (before : option Q) : option Q :=
  if has channels COLOR_CHANNEL_WARM_WHITE
     && has channels COLOR_CHANNEL_COLD_WHITE then
    Some (if ww >? 0 then TEMP_WARM_HASS
          else if cw >? 0 then TEMP_COLD_HASS else TEMP_MID_HASS)
  else if has channels COLOR_CHANNEL_WARM_WHITE then
    Some (HASS_COLOR_MIN + (HASS_COLOR_MAX - HASS_COLOR_MIN)
                           * (inject_Z ww / 255))%Q
  else if has channels COLOR_CHANNEL_COLD_WHITE then
    Some (HASS_COLOR_MIN + (HASS_COLOR_MAX - HASS_COLOR_MIN)
                           * ((255 - inject_Z cw) / 255))%Q
  else before.

(** The rgb value [update_properties] ends with, given the five bytes. *)
Definition decoded_rgb (channels r g b ww cw : Z) : option (list Z) :=
  if has_rgb channels then
    if has channels COLOR_CHANNEL_WARM_WHITE
       && has channels COLOR_CHANNEL_COLD_WHITE
       && negb (ww >? 0) && negb (cw >? 0)
    then Some [r; g; b]
    else match decoded_ct channels ww cw None with
         | Some ct => Some (ct_to_rgb ct)
         | None => Some [r; g; b]
         end
  else None.
End Decoded.

(** ** [setup_platform] *)

Module Platform.

(** The constants of [homeassistant.components.zwave] that
    [setup_platform] uses; the component is not part of this file. *)
Class ZwaveConst : Type := {
  ATTR_NODE_ID : string;
  ATTR_VALUE_ID : string;
  COMMAND_CLASS_SWITCH_MULTILEVEL : Z;
  COMMAND_CLASS_COLOR : Z;
  TYPE_BYTE : string;
  GENRE_USER : string
}.

(** A value as [node.values] lists it: the value object and the three
    attributes the platform filters on. *)
Record NetworkValue : Type := {
  value : ZWaveValue Z;
  command_class : Z;
  type : string;
  genre : string
}.

(** A node of the network: its values by id, [has_command_class], the
    colour values ([get_rgbbulbs()]) and the colour-channel values
    ([get_values(class_id=COMMAND_CLASS_COLOR, genre='System',
    type="Int")]), both in the order of iteration. It is the node the
    values found in it belong to. *)
Record NetworkNode : Type := {
  values : list (Z * NetworkValue);
  has_command_class : Z -> bool;
  get_rgbbulbs : list (ZWaveValue string);
  get_color_channel_values : list (ZWaveValue Z)
}.

Record ZWaveNetwork : Type := {
  nodes : list (Z * NetworkNode)
}.

(** [d[key]] on a dictionary given as its items; [None] is [KeyError]. *)
Fixpoint dict_get {K V : Type} (eqb : K -> K -> bool) (key : K)
  (d : list (K * V)) : option V :=
  match d with
  | [] => None
  | (k, v) :: d' => if eqb key k then Some v else dict_get eqb key d'
  end.

Inductive entity : Type :=
| Dimmer (o : ZwaveDimmer.obj)
| ColorLight (o : ZwaveColorLight.obj).

Inductive setup_exn : Type :=
| KeyError
| Uncaught (e : exn).

(** How [setup_platform] ends: it returns without adding anything, or it
    clears [change_verified] on the value and calls [add_devices] with one
    entity ([warned]: after logging the warning of the fallback), or it
    raises. *)
Inductive setup_result : Type :=
| NotAdded
| Added (e : entity) (warned : bool)
| Raised (e : setup_exn).

Section WithConstants.
Context {color : ColorUtil} {zwave : ZwaveConst}.

(** The end of [setup_platform], from [set_change_verified] on. *)
Definition add_light (node : NetworkNode) (v : ZWaveValue Z) : setup_result :=
  if has_command_class node COMMAND_CLASS_COLOR then
    match ZwaveColorLight.__init__ v (get_rgbbulbs node)
            (get_color_channel_values node) with
    | Return o => Added (ColorLight o) false
    | Raise ValueError => Added (Dimmer (ZwaveDimmer.__init__ v)) true
    | Raise e => Raised (Uncaught e)
    end
  else Added (Dimmer (ZwaveDimmer.__init__ v)) false.

(** [setup_platform(hass, config, add_devices, discovery_info)], with
    [zwave.NETWORK] as an argument. *)
Definition setup_platform (NETWORK : option ZWaveNetwork)
  (discovery_info : option (list (string * Z))) : setup_result :=
  match discovery_info, NETWORK with
  | None, _ => NotAdded
  | _, None => NotAdded
  | Some info, Some network =>
      match dict_get String.eqb ATTR_NODE_ID info with
      | None => Raised KeyError
      | Some node_id =>
          match dict_get Z.eqb node_id (nodes network) with
          | None => Raised KeyError
          | Some node =>
              match dict_get String.eqb ATTR_VALUE_ID info with
              | None => Raised KeyError
              | Some value_id =>
                  match dict_get Z.eqb value_id (values node) with
                  | None => Raised KeyError
                  | Some v =>
                      if negb (command_class v
                               =? COMMAND_CLASS_SWITCH_MULTILEVEL)
                      then NotAdded
                      else if negb (String.eqb (type v) TYPE_BYTE)
                      then NotAdded
                      else if negb (String.eqb (genre v) GENRE_USER)
                      then NotAdded
                      else add_light node (value v)
                  end
              end
          end
      end
  end.

(** The discovery info names a node of the network and a value of that
    node. *)
Definition found (info : list (string * Z)) (network : ZWaveNetwork)
  (node : NetworkNode) (v : NetworkValue) : Prop :=
  exists node_id value_id,
    dict_get String.eqb ATTR_NODE_ID info = Some node_id
    /\ dict_get Z.eqb node_id (nodes network) = Some node
    /\ dict_get String.eqb ATTR_VALUE_ID info = Some value_id
    /\ dict_get Z.eqb value_id (values node) = Some v.

(** The three tests a value has to pass. *)
Definition is_dimmer_value (v : NetworkValue) : bool :=
  (command_class v =? COMMAND_CLASS_SWITCH_MULTILEVEL)
  && String.eqb (type v) TYPE_BYTE
  && String.eqb (genre v) GENRE_USER.
End WithConstants.
End Platform.

(** *** A concrete network *)

Definition sample_zwave_const : Platform.ZwaveConst := {|
  Platform.ATTR_NODE_ID := "node_id";
  Platform.ATTR_VALUE_ID := "value_id";
  Platform.COMMAND_CLASS_SWITCH_MULTILEVEL := 38;
  Platform.COMMAND_CLASS_COLOR := 51;
  Platform.TYPE_BYTE := "Byte";
  Platform.GENRE_USER := "User"
|}.

(** The dimmer value 1 of a node, as a user byte of the multilevel switch
    class or as a value of another class. *)
Definition listed_dimmer (command_class : Z) : Platform.NetworkValue :=
  {| Platform.value := dimmer_value node_up 50;
     Platform.command_class := command_class;
     Platform.type := "Byte";
     Platform.genre := "User" |}.

(** A node with the colour class and the colour data [payload], with a
    second value that is no dimmer. *)
Definition color_node (payload : string) : Platform.NetworkNode :=
  {| Platform.values := [(1, listed_dimmer 38); (2, listed_dimmer 37)];
     Platform.has_command_class := fun c => c =? 51;
     Platform.get_rgbbulbs := [color_value node_up payload];
     Platform.get_color_channel_values := [channels_value node_up 31] |}.

Definition sample_network (payload : string) : Platform.ZWaveNetwork :=
  {| Platform.nodes := [(7, color_node payload)] |}.

Definition discovered (value_id : Z) : list (string * Z) :=
  [("node_id", 7); ("value_id", value_id)].

(** * Properties *)

(** ** The built-ins on examples *)

Example int16_FF : int16 "FF" = Return 255.
Proof. reflexivity. Qed.

Example int16_lower : int16 "1a" = Return 26.
Proof. reflexivity. Qed.

Example int16_short : int16 (slice "#1" 1 3) = Return 1.
Proof. reflexivity. Qed.

Example int16_empty : int16 (slice "#" 1 3) = Raise ValueError.
Proof. reflexivity. Qed.

Example int16_bad : int16 "g0" = Raise ValueError.
Proof. reflexivity. Qed.

Example int16_signed : int16 "-1" = Return (-1) /\ int16 " 7" = Return 7.
Proof. split; reflexivity. Qed.

Example format_02x_examples :
  format_02x 255 = "ff" /\ format_02x 0 = "00" /\ format_02x 10 = "0a" /\
  format_02x 256 = "100" /\ format_02x (-1) = "-1".
Proof. repeat split; reflexivity. Qed.

Example format_examples :
  format 0 = "0" /\ format 127 = "127" /\ format (-3) = "-3".
Proof. repeat split; reflexivity. Qed.

Example int_truncates :
  int (7 # 2) = 3 /\ int (- (7 # 2)) = -3 /\ int 5 = 5.
Proof. repeat split; reflexivity. Qed.

Example round_examples :
  round (1 # 2) = 0 /\ round (3 # 2) = 2 /\ round (255 # 346) = 1 /\
  round (5 # 2) = 2 /\ round (-(1 # 3)) = 0.
Proof. repeat split; reflexivity. Qed.

Lemma gt_true (a b : Q) : gt a b = true <-> (b < a)%Q.
Proof.
  unfold gt. rewrite negb_true_iff. split; intro H.
  - apply Qnot_le_lt. intro Hle. apply Qle_bool_iff in Hle. congruence.
  - destruct (Qle_bool a b) eqn:E; [|reflexivity].
    apply Qle_bool_iff in E. exfalso. apply (Qlt_not_le _ _ H E).
Qed.

Lemma gt_false (a b : Q) : gt a b = false <-> (a <= b)%Q.
Proof.
  unfold gt. rewrite negb_false_iff. apply Qle_bool_iff.
Qed.

(** ** [brightness_state] *)

(** C10. [brightness_state] on a raw value of 0 reports the light off with
    a brightness of 255; on a raw value [v > 0] it reports it on with the
    brightness [(v / 99) * 255], a fraction that is not rounded to an
    integer (for [v = 50] it is [4250 / 33]); so the brightness is never 0. *)
Theorem brightness_state_never_zero :
  (forall nd id inst,
     brightness_state
       {| value_id := id; instance := inst; data := 0; node := nd |}
     = (255%Q, STATE_OFF))
  /\ (forall value,
        data value > 0 ->
        brightness_state value
        = ((inject_Z (data value) / 99) * 255, STATE_ON)%Q)
  /\ (fst (brightness_state (dimmer_value node_up 50)) == 4250 # 33)%Q
  /\ (forall value, ~ (fst (brightness_state value) == 0)%Q).
Proof.
  split; [reflexivity|]. split; [|split; [reflexivity|]].
  - intros value Hpos. unfold brightness_state.
    destruct (data value >? 0) eqn:E; [reflexivity|].
    rewrite Z.gtb_ltb, Z.ltb_ge in E. lia.
  - intro value. unfold brightness_state.
    destruct (data value >? 0) eqn:E; cbn [fst].
    + rewrite Z.gtb_ltb, Z.ltb_lt in E.
      assert (H : (0 < inject_Z (data value) / 99 * 255)%Q).
      { apply Qmult_lt_0_compat; [|reflexivity].
        apply Qlt_shift_div_l; [reflexivity|].
        rewrite Qmult_0_l. unfold Qlt. simpl. lia. }
      intro Hz. rewrite Hz in H. discriminate H.
    + discriminate.
Qed.

(** C10 on a dimmer at level 50. *)
Lemma brightness_state_never_zero_witness :
  data (dimmer_value node_up 50) > 0
  /\ brightness_state (dimmer_value node_up 50)
     = ((inject_Z (data (dimmer_value node_up 50)) / 99) * 255, STATE_ON)%Q.
Proof.
  split; [reflexivity|].
  apply (proj1 (proj2 brightness_state_never_zero)). reflexivity.
Defined.

(** ** Running methods *)

Ltac run_method :=
  cbv [bind ret raise get modify lift zoom when on_self emit];
  cbn [self clock timers trace with_self with_timers fst snd].

Lemma rgbw_payloads_app (a b : list (Z * effect)) :
  rgbw_payloads (a ++ b) = (rgbw_payloads a ++ rgbw_payloads b)%list.
Proof. apply flat_map_app. Qed.

Lemma dimmer_levels_app (a b : list (Z * effect)) :
  dimmer_levels (a ++ b) = (dimmer_levels a ++ dimmer_levels b)%list.
Proof. apply flat_map_app. Qed.

(** [format(n, '02x')] of a byte is its two hexadecimal digits. *)
Lemma format_02x_byte (n : Z) : 0 <= n <= 255 -> format_02x n = hex2 n.
Proof.
  intro Hn.
  assert (Hall : forallb (fun k => String.eqb (format_02x k) (hex2 k))
                         (map Z.of_nat (seq 0 256)) = true)
    by (vm_compute; reflexivity).
  rewrite forallb_forall in Hall. apply String.eqb_eq, Hall.
  apply in_map_iff. exists (Z.to_nat n). split; [lia|].
  apply in_seq. lia.
Qed.

(** ** [ZwaveDimmer.turn_on] *)

(** The whole of [ZwaveDimmer.turn_on]: one [set_dimmer] call; the
    brightness is assigned before it, the state after it and only if the
    node answered true. *)
Lemma dimmer_turn_on_eq (kw : kwargs) (w : world ZwaveDimmer.obj) :
  ZwaveDimmer.turn_on kw w =
  let o := requested_brightness kw (self w) in
  let v := ZwaveDimmer._value (self w) in
  let level := dimmer_level kw (ZwaveDimmer._brightness (self w)) in
  (Return tt,
   {| self := if set_dimmer (node v) (value_id v) level
              then ZwaveDimmer.set_state STATE_ON o else o;
      clock := clock w; timers := timers w;
      trace := trace w ++ [(clock w, SetDimmer (value_id v) level)] |}).
Proof.
  unfold ZwaveDimmer.turn_on, ZwaveDimmer.call_set_dimmer, dimmer_level,
    requested_brightness.
  destruct (ATTR_BRIGHTNESS kw) as [b|]; run_method;
    cbn [ZwaveDimmer._value ZwaveDimmer._brightness
         ZwaveDimmer.set_brightness];
    destruct (set_dimmer _ _ _); reflexivity.
Qed.

Lemma requested_brightness_value kw o :
  ZwaveDimmer._value (requested_brightness kw o) = ZwaveDimmer._value o.
Proof. unfold requested_brightness. destruct (ATTR_BRIGHTNESS kw); reflexivity. Qed.

Lemma requested_brightness_state kw o :
  ZwaveDimmer._state (requested_brightness kw o) = ZwaveDimmer._state o.
Proof. unfold requested_brightness. destruct (ATTR_BRIGHTNESS kw); reflexivity. Qed.

(** ** [ZwaveColorLight.turn_on] *)

Section TurnOn.
Context {color : ColorUtil}.
Import ZwaveColorLight.

(** [turn_on] after its colour branches: the payload or the warning, then
    the dimmer's [turn_on]. *)
Lemma turn_on_eq (kw : kwargs) (w : world obj) :
  turn_on kw w =
  match build_rgbw kw w with
  | (Raise e, w1) => (Raise e, w1)
  | (Return rgbw, w1) =>
      let e := match rgbw with
               | Some payload =>
                   SetRgbw (value_id (_value_color (self w1))) payload
               | None => Warning "rgbw string was not generated for turn_on"
               end in
      let o := requested_brightness kw (super (self w1)) in
      let v := ZwaveDimmer._value (super (self w1)) in
      let level :=
        dimmer_level kw (ZwaveDimmer._brightness (super (self w1))) in
      (Return tt,
       {| self := set_super (if set_dimmer (node v) (value_id v) level
                             then ZwaveDimmer.set_state STATE_ON o else o)
                            (self w1);
          clock := clock w1; timers := timers w1;
          trace := trace w1 ++ [(clock w1, e);
                                (clock w1, SetDimmer (value_id v) level)] |})
  end.
Proof.
  unfold turn_on. unfold bind at 1.
  destruct (build_rgbw kw w) as [[rgbw|e] w1]; [|reflexivity].
  unfold bind at 1.
  destruct rgbw as [payload|]; unfold as_dimmer; run_method;
    rewrite dimmer_turn_on_eq; cbn [self clock timers trace];
    rewrite <- app_assoc; reflexivity.
Qed.

(** C1, amended. With both white channels and a colour temperature
    requested, [turn_on] returns and writes one of two fixed payloads,
    never a blend: [#000000FF00] (warm channel saturated) when the target
    is above [TEMP_MID_HASS], and [#00000000FF] (cold channel saturated)
    when it is at most [TEMP_MID_HASS]; the dimmer write follows. *)
Theorem turn_on_temperature_two_white (w : world obj) (kw : kwargs) (T : Q) :
  ATTR_COLOR_TEMP kw = Some T ->
  has (_color_channels (self w)) COLOR_CHANNEL_WARM_WHITE = true ->
  has (_color_channels (self w)) COLOR_CHANNEL_COLD_WHITE = true ->
  exists payload,
    fst (turn_on kw w) = Return tt
    /\ trace (snd (turn_on kw w)) = (trace w ++ writes w kw payload)%list
    /\ ((TEMP_MID_HASS < T)%Q -> payload = "#000000FF00")
    /\ ((T <= TEMP_MID_HASS)%Q -> payload = "#00000000FF").
Proof.
  intros HT Hw Hc.
  exists (if gt T TEMP_MID_HASS then "#000000FF00" else "#00000000FF").
  rewrite turn_on_eq. unfold build_rgbw, writes. run_method.
  rewrite HT, Hw, Hc. cbn [andb].
  destruct (gt T TEMP_MID_HASS) eqn:E; cbn [fst snd self clock trace];
    (split; [reflexivity|]); (split; [reflexivity|]); split; intro H.
  - reflexivity.
  - apply gt_false in H. congruence.
  - apply gt_true in H. congruence.
  - reflexivity.
Qed.

(** C2, amended. With exactly one white channel and a colour temperature
    [T] requested ([HASS_COLOR_MAX] and [HASS_COLOR_MIN] being different),
    [turn_on] returns and writes [#000000] followed by the text of one
    channel value, which is the integer part (truncation toward zero, no
    rounding) of [(T - MIN) / (MAX - MIN) * 255] when only warm white is
    present and of [255 - (T - MIN) / (MAX - MIN) * 255] when only cold
    white is present; the text is what [format] makes of that integer. *)
Theorem turn_on_temperature_one_white (w : world obj) (kw : kwargs) (T : Q) :
  ATTR_COLOR_TEMP kw = Some T ->
  white_count (_color_channels (self w)) = 1%nat ->
  ~ (HASS_COLOR_MAX - HASS_COLOR_MIN == 0)%Q ->
  let channels := _color_channels (self w) in
  let x := ((T - HASS_COLOR_MIN)
            / (HASS_COLOR_MAX - HASS_COLOR_MIN) * 255)%Q in
  exists level,
    fst (turn_on kw w) = Return tt
    /\ trace (snd (turn_on kw w))
       = (trace w ++ writes w kw ("#000000" ++ format level))%list
    /\ (has channels COLOR_CHANNEL_WARM_WHITE = true -> level = int x)
    /\ (has channels COLOR_CHANNEL_COLD_WHITE = true ->
        level = int (255 - x)%Q).
Proof.
  intros HT Hone Hne channels x. subst channels x.
  exists (white_level (_color_channels (self w)) T).
  rewrite turn_on_eq. unfold build_rgbw, writes, white_level, div.
  run_method. rewrite HT.
  destruct (Qeq_bool (HASS_COLOR_MAX - HASS_COLOR_MIN) 0) eqn:Ez.
  { apply Qeq_bool_iff in Ez. contradiction. }
  unfold white_count in Hone.
  destruct (has (_color_channels (self w)) COLOR_CHANNEL_WARM_WHITE);
    destruct (has (_color_channels (self w)) COLOR_CHANNEL_COLD_WHITE);
    try discriminate Hone; cbn [andb fst snd self clock trace];
    (split; [reflexivity|]); (split; [reflexivity|]);
    split; intro H; try reflexivity; discriminate H.
Qed.

(** C3, amended. With explicit RGB bytes requested and no colour
    temperature, [turn_on] returns and writes [#] followed by the three
    bytes, two lower-case hexadecimal digits each, followed by [0000]:
    two zero bytes whatever the capability set is. For (255, 0, 0) that is
    [#ff00000000]. *)
Theorem turn_on_rgb (w : world obj) (kw : kwargs) (r g b : Z) :
  ATTR_COLOR_TEMP kw = None ->
  ATTR_RGB_COLOR kw = Some [r; g; b] ->
  0 <= r <= 255 -> 0 <= g <= 255 -> 0 <= b <= 255 ->
  fst (turn_on kw w) = Return tt
  /\ trace (snd (turn_on kw w))
     = (trace w
          ++ writes w kw ("#" ++ hex2 r ++ hex2 g ++ hex2 b ++ "0000"))%list
  /\ ((r, g, b) = (255, 0, 0) ->
      rgbw_payloads (trace (snd (turn_on kw w)))
      = (rgbw_payloads (trace w) ++ ["#ff00000000"])%list).
Proof.
  intros HT Hrgb Hr Hg Hb.
  assert (Htrace :
    trace (snd (turn_on kw w))
    = (trace w
         ++ writes w kw ("#" ++ hex2 r ++ hex2 g ++ hex2 b ++ "0000"))%list).
  { rewrite turn_on_eq. unfold build_rgbw, writes. run_method.
    rewrite HT, Hrgb. cbn [fst snd self clock trace map String.concat].
    rewrite !format_02x_byte by assumption. reflexivity. }
  split; [|split].
  - rewrite turn_on_eq. unfold build_rgbw. run_method.
    rewrite HT, Hrgb. reflexivity.
  - exact Htrace.
  - intro E. inversion E; subst. rewrite Htrace, rgbw_payloads_app.
    reflexivity.
Qed.

(** C5, amended. Called with neither a colour temperature nor RGB,
    [turn_on] does not fail: it logs a warning, does not call [set_rgbw],
    and still sends the dimmer write. *)
Theorem turn_on_without_colour (w : world obj) (kw : kwargs) :
  ATTR_COLOR_TEMP kw = None ->
  ATTR_RGB_COLOR kw = None ->
  let v := ZwaveDimmer._value (super (self w)) in
  let level := dimmer_level kw (ZwaveDimmer._brightness (super (self w))) in
  fst (turn_on kw w) = Return tt
  /\ trace (snd (turn_on kw w))
     = (trace w
          ++ [(clock w, Warning "rgbw string was not generated for turn_on");
              (clock w, SetDimmer (value_id v) level)])%list
  /\ rgbw_payloads (trace (snd (turn_on kw w))) = rgbw_payloads (trace w)
  /\ dimmer_levels (trace (snd (turn_on kw w)))
     = (dimmer_levels (trace w) ++ [level])%list.
Proof.
  intros HT Hrgb v level. subst v level.
  rewrite turn_on_eq. unfold build_rgbw. run_method. rewrite HT, Hrgb.
  cbn [fst snd self clock trace].
  rewrite rgbw_payloads_app, dimmer_levels_app. cbn.
  rewrite app_nil_r. repeat split; reflexivity.
Qed.

(** The colour branches leave the dimmer part, the values, the clock,
    the timers and the trace as they were. *)
Lemma build_rgbw_frame (kw : kwargs) (w : world obj) :
  let w1 := snd (build_rgbw kw w) in
  super (self w1) = super (self w)
  /\ _value_color (self w1) = _value_color (self w)
  /\ _color_channels (self w1) = _color_channels (self w)
  /\ clock w1 = clock w /\ timers w1 = timers w /\ trace w1 = trace w.
Proof.
  unfold build_rgbw, div. run_method.
  destruct (ATTR_COLOR_TEMP kw) as [T|].
  - destruct (has _ COLOR_CHANNEL_WARM_WHITE),
             (has _ COLOR_CHANNEL_COLD_WHITE); cbn [andb];
      try destruct (gt T TEMP_MID_HASS);
      try destruct (Qeq_bool _ 0); cbn; repeat split; reflexivity.
  - destruct (ATTR_RGB_COLOR kw); cbn; repeat split; reflexivity.
Qed.

(** C4, amended. When [set_dimmer] answers false, [turn_on] leaves the
    cached on/off state as it was, for the dimmer and for the colour
    light; only a true answer sets it to on. The other cached attributes
    do not wait for the write: the requested brightness, the colour
    temperature of the two-channel branch and the requested RGB value are
    assigned before the calls, and the answer of [set_rgbw] is not looked
    at. *)
Theorem turn_on_failed_write (w : world obj) (kw : kwargs) :
  let v := ZwaveDimmer._value (super (self w)) in
  let level := dimmer_level kw (ZwaveDimmer._brightness (super (self w))) in
  set_dimmer (node v) (value_id v) level = false ->
  let wd := {| self := super (self w); clock := clock w;
               timers := timers w; trace := trace w |} in
  let d' := self (snd (ZwaveDimmer.turn_on kw wd)) in
  let o' := self (snd (turn_on kw w)) in
  (ZwaveDimmer._state d' = ZwaveDimmer._state (super (self w))
   /\ forall b, ATTR_BRIGHTNESS kw = Some b -> ZwaveDimmer._brightness d' = b)
  /\ ZwaveDimmer._state (super o') = ZwaveDimmer._state (super (self w))
  /\ (forall b, fst (turn_on kw w) = Return tt ->
                ATTR_BRIGHTNESS kw = Some b ->
                ZwaveDimmer._brightness (super o') = b)
  /\ (forall T, ATTR_COLOR_TEMP kw = Some T ->
                has (_color_channels (self w)) COLOR_CHANNEL_WARM_WHITE
                && has (_color_channels (self w)) COLOR_CHANNEL_COLD_WHITE
                = true ->
                _ct o' = Some (if gt T TEMP_MID_HASS
                               then TEMP_WARM_HASS else TEMP_COLD_HASS))
  /\ (forall rgb, ATTR_COLOR_TEMP kw = None ->
                  ATTR_RGB_COLOR kw = Some rgb ->
                  _rgb o' = Some rgb).
Proof.
  intros v level Hfail wd d' o'. subst v level wd d' o'.
  split; [|split; [|split; [|split]]].
  - rewrite dimmer_turn_on_eq. cbn [self snd]. rewrite Hfail.
    split; [apply requested_brightness_state|].
    intros b Hb. unfold requested_brightness. rewrite Hb. reflexivity.
  - rewrite turn_on_eq.
    pose proof (build_rgbw_frame kw w) as (Hs & _ & _ & _).
    destruct (build_rgbw kw w) as [[rgbw|e] w1]; cbn [snd] in Hs |- *.
    + cbn [self super set_super]. rewrite Hs, Hfail.
      apply requested_brightness_state.
    + now rewrite Hs.
  - intros b Hret Hb. revert Hret. rewrite turn_on_eq.
    pose proof (build_rgbw_frame kw w) as (Hs & _ & _ & _).
    destruct (build_rgbw kw w) as [[rgbw|e] w1]; cbn [snd fst] in Hs |- *;
      [|discriminate].
    intros _. cbn [self super set_super]. rewrite Hs, Hfail.
    unfold requested_brightness. rewrite Hb. reflexivity.
  - intros T HT Hboth. rewrite turn_on_eq. unfold build_rgbw. run_method.
    rewrite HT, Hboth. destruct (gt T TEMP_MID_HASS); reflexivity.
  - intros rgb HT Hrgb. rewrite turn_on_eq. unfold build_rgbw. run_method.
    rewrite HT, Hrgb. reflexivity.
Qed.

(** The other direction: a true answer of [set_dimmer] turns the cached
    state on. *)
Lemma turn_on_successful_write (w : world obj) (kw : kwargs) :
  let v := ZwaveDimmer._value (super (self w)) in
  let level := dimmer_level kw (ZwaveDimmer._brightness (super (self w))) in
  set_dimmer (node v) (value_id v) level = true ->
  fst (turn_on kw w) = Return tt ->
  ZwaveDimmer._state (super (self (snd (turn_on kw w)))) = STATE_ON.
Proof.
  intros v level Hok. subst v level. rewrite turn_on_eq.
  pose proof (build_rgbw_frame kw w) as (Hs & _ & _ & _).
  destruct (build_rgbw kw w) as [[rgbw|e] w1]; cbn [snd fst] in Hs |- *;
    [|discriminate].
  intros _. cbn [self super set_super]. rewrite Hs, Hok. reflexivity.
Qed.
End TurnOn.

(** ** [ZwaveColorLight.update_properties] *)

Section Decode.
Context {color : ColorUtil}.
Import ZwaveColorLight.

Ltac split_cases :=
  repeat (match goal with
          | |- context [match int16 ?x with _ => _ end] =>
              destruct (int16 x)
          | |- context [if ?a >? 0 then _ else _] => destruct (a >? 0)
          end; cbv beta iota zeta delta [negb]).

(** What a decode that returns does for a channel group the device
    lacks: without a white channel the colour temperature is not
    assigned, and without red, green and blue the rgb value ends as
    [None]. The capability bits are those of the channel value. *)
Lemma update_properties_absent (o o' : obj) :
  update_properties o = (Return tt, o') ->
  let channels := data (_value_color_channels o) in
  _color_channels o' = channels
  /\ (has_white channels = false -> _ct o' = _ct o)
  /\ (has_rgb channels = false -> _rgb o' = None).
Proof.
  intros Hrun channels. subst channels.
  unfold update_properties, white_channel, assign_ct_and_rgb,
    ZwaveDimmer.update_properties, has_white, has_rgb in *.
  revert Hrun. run_method.
  destruct (brightness_state (ZwaveDimmer._value (super o))) as [br st].
  cbv beta iota zeta.
  cbn [_value_color _value_color_channels _color_channels set_super
       set_color_channels set_rgb set_ct].
  destruct (int16 (slice (data (_value_color o)) 1 3));
    [|intro Hx; discriminate Hx].
  destruct (int16 (slice (data (_value_color o)) 3 5));
    [|intro Hx; discriminate Hx].
  destruct (int16 (slice (data (_value_color o)) 5 7));
    [|intro Hx; discriminate Hx].
  destruct (has _ COLOR_CHANNEL_WARM_WHITE),
           (has _ COLOR_CHANNEL_COLD_WHITE);
    destruct (has _ COLOR_CHANNEL_RED || has _ COLOR_CHANNEL_GREEN
              || has _ COLOR_CHANNEL_BLUE);
    cbn [andb orb negb]; cbv beta iota zeta.
  all: split_cases.
  all: try (intro Hx; discriminate Hx).
  all: intro Hrun; inversion Hrun; subst; cbn.
  all: split; [reflexivity|].
  all: split; intro H; try discriminate H; reflexivity.
Qed.

(** C7. Decoding gives [None] for a channel group the device lacks. On an
    object whose colour temperature is [None], which is how [__init__]
    creates it, a decode that returns leaves the colour temperature
    [None] when the capabilities include neither white channel; and every
    decode that returns gives rgb [None] when the capabilities include
    none of red, green and blue, whatever bytes were parsed. *)
Theorem decode_absent_groups (o o' : obj) :
  _ct o = None ->
  update_properties o = (Return tt, o') ->
  let channels := data (_value_color_channels o) in
  (has_white channels = false -> color_temp o' = None)
  /\ (has_rgb channels = false -> rgb_color o' = None).
Proof.
  intros Hct Hrun channels.
  destruct (update_properties_absent o o' Hrun) as (_ & Hw & Hrgb).
  split; [|exact Hrgb].
  intro H. unfold color_temp. rewrite (Hw H). exact Hct.
Qed.

(** So it is for the object [__init__] returns. *)
Lemma init_absent_groups value rgbbulbs channel_values (o : obj) :
  __init__ value rgbbulbs channel_values = Return o ->
  (has_white (_color_channels o) = false -> color_temp o = None)
  /\ (has_rgb (_color_channels o) = false -> rgb_color o = None).
Proof.
  unfold __init__.
  destruct (last_match _ rgbbulbs) as [vc|]; [|discriminate].
  destruct (last_match _ channel_values) as [vch|]; [|discriminate].
  match goal with
  | |- context [update_properties ?x] =>
      destruct (update_properties x) as [[[]|e] o1] eqn:E
  end; [|discriminate].
  intro H. inversion H; subst o1. clear H.
  destruct (update_properties_absent _ _ E) as (Hch & Hw & Hrgb).
  cbn [_value_color_channels _ct] in *. rewrite Hch.
  split; [|exact Hrgb].
  intro H. unfold color_temp. now rewrite (Hw H).
Qed.

(** C6, amended. With both white channels and a payload whose bytes are
    [r g b ww cw], the decode returns and follows this precedence: if
    [ww > 0] the temperature is [TEMP_WARM_HASS]; else if [cw > 0] it is
    [TEMP_COLD_HASS]; else it is [TEMP_MID_HASS]. The rgb value is the RGB
    equivalent ([ct_to_rgb]) of the temperature in the first two cases and
    the parsed bytes in the third, provided the device has one of the red,
    green and blue channels; without any of them it is [None]. *)
Theorem decode_two_white (o : obj) (r g b ww cw : Z) :
  let channels := data (_value_color_channels o) in
  let payload := data (_value_color o) in
  has channels COLOR_CHANNEL_WARM_WHITE = true ->
  has channels COLOR_CHANNEL_COLD_WHITE = true ->
  int16 (slice payload 1 3) = Return r ->
  int16 (slice payload 3 5) = Return g ->
  int16 (slice payload 5 7) = Return b ->
  int16 (slice payload 7 9) = Return ww ->
  int16 (slice payload 9 11) = Return cw ->
  let o' := snd (update_properties o) in
  let shown rgb := if has_rgb channels then Some rgb else None in
  fst (update_properties o) = Return tt
  /\ (0 < ww ->
      color_temp o' = Some TEMP_WARM_HASS
      /\ rgb_color o' = shown (ct_to_rgb TEMP_WARM_HASS))
  /\ (ww <= 0 -> 0 < cw ->
      color_temp o' = Some TEMP_COLD_HASS
      /\ rgb_color o' = shown (ct_to_rgb TEMP_COLD_HASS))
  /\ (ww <= 0 -> cw <= 0 ->
      color_temp o' = Some TEMP_MID_HASS
      /\ rgb_color o' = shown [r; g; b]).
Proof.
  intros channels payload Hw Hc Hr Hg Hb Hww Hcw o' shown.
  subst channels payload o' shown.
  unfold update_properties, white_channel, assign_ct_and_rgb,
    ZwaveDimmer.update_properties, has_rgb, color_temp, rgb_color.
  run_method.
  destruct (brightness_state (ZwaveDimmer._value (super o))) as [br st].
  cbv beta iota zeta.
  cbn [_value_color _value_color_channels _color_channels set_super
       set_color_channels set_rgb set_ct].
  rewrite Hr, Hg, Hb, Hw, Hc. cbn [Nat.add]. rewrite Hww.
  cbv beta iota zeta. cbn [Nat.add]. rewrite Hcw. cbn [andb].
  cbv beta iota zeta.
  destruct (ww >? 0) eqn:Eww; [|destruct (cw >? 0) eqn:Ecw];
    rewrite ?Z.gtb_ltb, ?Z.ltb_lt, ?Z.ltb_ge in *;
    destruct (has _ COLOR_CHANNEL_RED || has _ COLOR_CHANNEL_GREEN
              || has _ COLOR_CHANNEL_BLUE);
    cbn; repeat split; intros; try reflexivity; lia.
Qed.
End Decode.

(** ** The debounced refresh of [ZwaveDimmer] *)

Section Refresher.
Import ZwaveDimmer.

Lemma refresh_value_eq (w : world obj) :
  _refresh_value w =
  (Return tt,
   {| self := set_refreshing true (self w); clock := clock w;
      timers := timers w;
      trace := trace w
               ++ [(clock w, Refresh (value_id (_value (self w))))] |}).
Proof. reflexivity. Qed.

Lemma run_due_finished (t : Z) (ts : list Timer) (w : world obj) :
  all_finished ts -> run_due t ts w = (ts, w).
Proof.
  induction 1 as [|tm ts Htm _ IH]; [reflexivity|].
  cbn [run_due]. rewrite Htm. cbn [negb andb]. now rewrite IH.
Qed.

Lemma run_due_last (t : Z) (ts : list Timer) (tm : Timer) (w : world obj) :
  all_finished ts ->
  run_due t (ts ++ [tm]) w =
  (ts ++ fst (run_due t [tm] w), snd (run_due t [tm] w))%list.
Proof.
  induction 1 as [|tm' ts Htm _ IH].
  - cbn [app]. now destruct (run_due t [tm] w).
  - cbn [app run_due]. rewrite Htm. cbn [negb andb]. now rewrite IH.
Qed.

Lemma advance_idle (t : Z) (w : world obj) :
  all_finished (timers w) -> advance_to t w = set_clock t w.
Proof.
  intro H. unfold advance_to. now rewrite run_due_finished.
Qed.

Lemma advance_not_due (t due : Z) (w : world obj) :
  timer_pending due w -> t < due -> advance_to t w = set_clock t w.
Proof.
  intros (ts & Hts & Hfin & _) Hlt. unfold advance_to.
  rewrite Hts, run_due_last by assumption. cbn [run_due finished fire_at negb andb].
  replace (due <=? t) with false by (symmetry; apply Z.leb_gt; lia).
  cbn [fst snd]. unfold set_clock, with_timers. cbn. now rewrite Hts.
Qed.

Lemma advance_due (t due : Z) (w : world obj) (ts : list Timer) :
  timers w = (ts ++ [{| fire_at := due; finished := false |}])%list ->
  all_finished ts ->
  due <= t ->
  advance_to t w =
  {| self := set_refreshing true (self w);
     clock := Z.max (Z.max (clock w) due) t;
     timers := ts ++ [{| fire_at := due; finished := true |}];
     trace := trace w ++ [(Z.max (clock w) due,
                           Refresh (value_id (_value (self w))))] |}.
Proof.
  intros Hts Hfin Hle. unfold advance_to.
  rewrite Hts, run_due_last by assumption. cbn [run_due finished fire_at negb andb].
  replace (due <=? t) with true by (symmetry; apply Z.leb_le; lia).
  reflexivity.
Qed.

Lemma isAlive_finished (r : nat) (ts : list Timer) :
  all_finished ts -> isAlive r ts = false.
Proof.
  intro H. unfold isAlive. destruct (nth_error ts r) as [tm|] eqn:E; [|reflexivity].
  apply nth_error_In in E. unfold all_finished in H. rewrite Forall_forall in H.
  now rewrite (H _ E).
Qed.

Lemma isAlive_last (ts : list Timer) (tm : Timer) :
  isAlive (List.length ts) (ts ++ [tm]) = negb (finished tm).
Proof.
  unfold isAlive. rewrite nth_error_app2, Nat.sub_diag by lia. reflexivity.
Qed.

Lemma finish_at_last (ts : list Timer) (tm : Timer) :
  finish_at (List.length ts) (ts ++ [tm]) = (ts ++ [finish tm])%list.
Proof. induction ts as [|a ts IH]; cbn; [reflexivity|now rewrite IH]. Qed.

Lemma all_finished_snoc (ts : list Timer) (tm : Timer) :
  all_finished ts -> finished tm = true -> all_finished (ts ++ [tm]).
Proof.
  intros H1 H2. apply Forall_app. split; [assumption|]. now constructor.
Qed.

(** The handler on a matching report with no refresh in flight and no
    timer alive: a timer is started. *)
Lemma value_changed_idle (value : ZWaveValue Z) (w : world obj) :
  value_id (_value (self w)) = value_id value ->
  _refreshing (self w) = false ->
  all_finished (timers w) ->
  _value_changed value w =
  (Return tt,
   {| self := set_timer (Some (List.length (timers w))) (self w);
      clock := clock w;
      timers := timers w ++ [{| fire_at := clock w + 2000; finished := false |}];
      trace := trace w ++ [(clock w, UpdateHaState)] |}).
Proof.
  intros Hid Hr Hfin. unfold _value_changed, start_timer, cancel. run_method.
  rewrite Hid, Z.eqb_refl, Hr. cbn [negb].
  destruct (_timer (self w)) as [r|]; [rewrite (isAlive_finished r _ Hfin)|];
    reflexivity.
Qed.

Lemma value_changed_pending
  (value : ZWaveValue Z) (w : world obj) (due : Z) (ts : list Timer) :
  value_id (_value (self w)) = value_id value ->
  timers w = (ts ++ [{| fire_at := due; finished := false |}])%list ->
  _timer (self w) = Some (List.length ts) ->
  _refreshing (self w) = false ->
  _value_changed value w =
  (Return tt,
   {| self := set_timer (Some (S (List.length ts))) (self w);
      clock := clock w;
      timers := (ts ++ [{| fire_at := due; finished := true |}])
                ++ [{| fire_at := clock w + 2000; finished := false |}];
      trace := trace w ++ [(clock w, UpdateHaState)] |}).
Proof.
  intros Hid Hts Ht Hr. unfold _value_changed, start_timer, cancel. run_method.
  rewrite Hid, Z.eqb_refl, Hr, Ht, Hts, isAlive_last. cbn [negb finished].
  cbv [with_self with_timers]. cbn [self clock timers trace].
  rewrite Hts, finish_at_last.
  rewrite !length_app. cbn [List.length]. rewrite Nat.add_1_r. reflexivity.
Qed.

Lemma value_changed_refreshing (value : ZWaveValue Z) (w : world obj) :
  value_id (_value (self w)) = value_id value ->
  _refreshing (self w) = true ->
  _value_changed value w =
  (Return tt,
   {| self := set_state (snd (brightness_state (_value (self w))))
                (set_brightness (fst (brightness_state (_value (self w))))
                   (set_refreshing false (self w)));
      clock := clock w; timers := timers w;
      trace := trace w ++ [(clock w, UpdateHaState)] |}).
Proof.
  intros Hid Hr. unfold _value_changed, update_properties. run_method.
  rewrite Hid, Z.eqb_refl, Hr. cbn [negb].
  cbn [_value set_refreshing].
  destruct (brightness_state (_value (self w))); reflexivity.
Qed.

Lemma value_changed_other (value : ZWaveValue Z) (w : world obj) :
  value_id (_value (self w)) <> value_id value ->
  _value_changed value w = (Return tt, w).
Proof.
  intros Hid. unfold _value_changed. run_method.
  apply Z.eqb_neq in Hid. rewrite Hid. reflexivity.
Qed.

Lemma any_alive_finished (ts : list Timer) :
  all_finished ts -> any_alive ts = false.
Proof.
  induction 1 as [|tm ts Htm _ IH]; [reflexivity|].
  cbn [any_alive existsb]. rewrite Htm. exact IH.
Qed.

Lemma any_alive_snoc (ts : list Timer) (due : Z) :
  any_alive (ts ++ [{| fire_at := due; finished := false |}]) = true.
Proof.
  unfold any_alive. rewrite existsb_app. cbn. apply orb_true_r.
Qed.

Lemma refreshes_app (a b : list (Z * effect)) :
  refreshes (a ++ b) = (refreshes a ++ refreshes b)%list.
Proof. apply filter_app. Qed.

(** *** At most one timer is alive *)

Lemma one_timer_advance (t : Z) (w : world obj) :
  one_timer w -> one_timer (advance_to t w).
Proof.
  intros [Hfin|[due Hp]].
  - rewrite advance_idle by assumption. now left.
  - destruct (Z.lt_ge_cases t due) as [Hlt|Hge].
    + rewrite (advance_not_due t due) by assumption.
      right. exists due. exact Hp.
    + destruct Hp as (ts & Hts & Hfin & _).
      rewrite (advance_due t due w ts) by assumption.
      left. cbn [timers]. now apply all_finished_snoc.
Qed.

Lemma one_timer_value_changed (value : ZWaveValue Z) (w : world obj) :
  one_timer w -> one_timer (snd (_value_changed value w)).
Proof.
  intro H.
  destruct (Z.eq_dec (value_id (_value (self w))) (value_id value))
    as [Hid|Hid]; [|now rewrite value_changed_other].
  destruct (_refreshing (self w)) eqn:Hr.
  - rewrite value_changed_refreshing by assumption. cbn [snd].
    destruct H as [Hfin|[due (ts & _ & _ & _ & Hr')]]; [now left|congruence].
  - destruct H as [Hfin|[due (ts & Hts & Hfin & Ht & _)]].
    + rewrite value_changed_idle by assumption. cbn [snd].
      right. exists (clock w + 2000), (timers w). now repeat split.
    + rewrite (value_changed_pending value w due ts) by assumption.
      cbn [snd]. right.
      exists (clock w + 2000), (ts ++ [{| fire_at := due; finished := true |}])%list.
      repeat split.
      * now apply all_finished_snoc.
      * cbn. rewrite length_app. cbn. now rewrite Nat.add_1_r.
      * exact Hr.
Qed.

Lemma one_timer_same (w w' : world obj) :
  timers w' = timers w ->
  _timer (self w') = _timer (self w) ->
  _refreshing (self w') = _refreshing (self w) ->
  one_timer w -> one_timer w'.
Proof.
  intros Hts Ht Hr [Hfin|[due (ts & Hts' & Hfin & Ht' & Hr')]].
  - left. now rewrite Hts.
  - right. exists due, ts. repeat split; congruence.
Qed.

Lemma one_timer_notify (t : Z) (value : ZWaveValue Z) (w : world obj) :
  one_timer w -> one_timer (notify t value w).
Proof.
  intro H. unfold notify. apply one_timer_value_changed.
  destruct (_ =? _); [|now apply one_timer_advance].
  eapply one_timer_same; [| | |apply (one_timer_advance t w H)]; reflexivity.
Qed.

Lemma reachable_one_timer (w : world obj) : reachable w -> one_timer w.
Proof.
  induction 1 as [value t0|t value w _ IH|t w _ IH|kw w _ IH|w _ IH].
  - left. constructor.
  - now apply one_timer_notify.
  - now apply one_timer_advance.
  - eapply one_timer_same; [| | |exact IH]; rewrite dimmer_turn_on_eq;
      cbn [snd self timers]; try reflexivity;
      unfold requested_brightness;
      destruct (set_dimmer _ _ _), (ATTR_BRIGHTNESS kw); reflexivity.
  - eapply one_timer_same; [| | |exact IH];
      unfold turn_off, call_set_dimmer; run_method;
      destruct (set_dimmer _ _ _); reflexivity.
Qed.

Lemma pending_state (due : Z) (w : world obj) :
  timer_pending due w -> refresher_state_of w = TIMER_PENDING.
Proof.
  intros (ts & Hts & _ & _ & Hr). unfold refresher_state_of.
  now rewrite Hr, Hts, any_alive_snoc.
Qed.

Lemma refreshing_state (w : world obj) :
  refresher_state_of w = REFRESHING <-> _refreshing (self w) = true.
Proof.
  unfold refresher_state_of.
  destruct (_refreshing (self w)); [tauto|].
  destruct (any_alive (timers w)); split; discriminate.
Qed.

(** When no refresh is in flight after time has passed, no timer ran. *)
Lemma advance_quiet (t : Z) (w : world obj) :
  one_timer w ->
  _refreshing (self (advance_to t w)) = false ->
  advance_to t w = set_clock t w.
Proof.
  intros [Hfin|[due Hp]] Hr; [now apply advance_idle|].
  destruct (Z.lt_ge_cases t due) as [Hlt|Hge];
    [now apply (advance_not_due t due)|].
  destruct Hp as (ts & Hts & Hfin & _).
  rewrite (advance_due t due w ts) in Hr by assumption. discriminate Hr.
Qed.

(** A matching report with no refresh in flight leaves exactly one timer
    alive, the new one, due 2000 ms after the report, and requests no
    refresh. *)
Lemma notify_quiet (t : Z) (value : ZWaveValue Z) (w : world obj) :
  one_timer w ->
  clock w <= t ->
  _refreshing (self (advance_to t w)) = false ->
  value_id value = value_id (_value (self w)) ->
  let w' := notify t value w in
  timer_pending (t + 2000) w'
  /\ clock w' = t
  /\ value_id (_value (self w')) = value_id (_value (self w))
  /\ List.length (timers w') = S (List.length (timers w))
  /\ refreshes (trace w') = refreshes (trace w).
Proof.
  intros Hone Hclock Hr Hid w'. subst w'. unfold notify.
  pose proof (advance_quiet t w Hone Hr) as Hadv.
  rewrite Hadv in Hr |- *. clear Hadv.
  cbn [set_clock self clock] in Hr |- *. rewrite <- Hid, Z.eqb_refl.
  set (w2 := with_self _ _).
  assert (Hid2 : value_id (_value (self w2)) = value_id value) by reflexivity.
  assert (Hr2 : _refreshing (self w2) = false) by exact Hr.
  assert (Hc2 : clock w2 = t) by (cbn; lia).
  destruct Hone as [Hfin|[due (ts & Hts & Hfin & Ht & _)]].
  - rewrite value_changed_idle by assumption. cbn [snd].
    rewrite Hc2. repeat split.
    + exists (timers w2). now repeat split.
    + cbn [timers]. rewrite length_app. cbn. lia.
    + cbn [trace]. rewrite refreshes_app. cbn. apply app_nil_r.
  - rewrite (value_changed_pending value w2 due ts) by assumption.
    cbn [snd]. rewrite Hc2. repeat split.
    + exists (ts ++ [{| fire_at := due; finished := true |}])%list.
      repeat split; [now apply all_finished_snoc| |exact Hr].
      cbn. rewrite length_app. cbn. now rewrite Nat.add_1_r.
    + cbn [timers]. rewrite Hts, !length_app. cbn. lia.
    + cbn [trace]. rewrite refreshes_app. cbn. apply app_nil_r.
Qed.

Lemma pending_one_timer (due : Z) (w : world obj) :
  timer_pending due w -> one_timer w.
Proof. intro H. right. now exists due. Qed.

(** The reports of a burst: each one replaces the pending timer. *)
Lemma burst_run (evs : list (Z * ZWaveValue Z)) :
  forall (t : Z) (w : world obj),
    timer_pending (t + 2000) w ->
    clock w = t ->
    burst_after (value_id (_value (self w))) t evs ->
    let w' := run evs w in
    timer_pending (last_time t evs + 2000) w'
    /\ clock w' = last_time t evs
    /\ value_id (_value (self w')) = value_id (_value (self w))
    /\ List.length (timers w')
       = (List.length (timers w) + List.length evs)%nat
    /\ refreshes (trace w') = refreshes (trace w).
Proof.
  induction evs as [|[t' value] evs IH]; intros t w Hp Hc Hb.
  - cbn. repeat split; try assumption. lia.
  - destruct Hb as (Ht' & Hid & Hb). cbn [run last_time].
    assert (Hq : _refreshing (self (advance_to t' w)) = false).
    { rewrite (advance_not_due t' (t + 2000)) by (assumption || lia).
      destruct Hp as (ts & _ & _ & _ & Hr). exact Hr. }
    destruct (notify_quiet t' value w (pending_one_timer _ _ Hp)
                ltac:(lia) Hq Hid) as (Hp1 & Hc1 & Hid1 & Hl1 & Hr1).
    rewrite <- Hid1 in Hb.
    destruct (IH t' _ Hp1 Hc1 Hb) as (Hp2 & Hc2 & Hid2 & Hl2 & Hr2).
    repeat split; try assumption; try congruence.
    rewrite Hl2, Hl1. cbn. lia.
Qed.

(** The pending timer runs when its time has come: one refresh request,
    at the time the timer was due. *)
Lemma pending_fires (due T : Z) (w : world obj) :
  timer_pending due w ->
  clock w <= due <= T ->
  let w' := advance_to T w in
  refreshes (trace w')
  = (refreshes (trace w)
       ++ [(due, Refresh (value_id (_value (self w))))])%list
  /\ _refreshing (self w') = true
  /\ all_finished (timers w').
Proof.
  intros (ts & Hts & Hfin & _) Hle w'. subst w'.
  rewrite (advance_due T due w ts) by (assumption || lia).
  cbn [trace self timers set_refreshing _refreshing].
  rewrite refreshes_app, Z.max_r by lia. cbn.
  repeat split. now apply all_finished_snoc.
Qed.

(** C9. A matching report that arrives while a refresh is in flight ends
    the refresh: the handler returns, the in-flight flag is cleared, the
    brightness and the state are those of the value, no timer is created
    or cancelled, no refresh is requested, and the refresher is idle.
    Delivered by the network library at any time [t], the report has the
    same effect, with the reported value as the source of the state. *)
Theorem notification_while_refreshing
  (w : world obj) (value : ZWaveValue Z) :
  reachable w ->
  value_id (_value (self w)) = value_id value ->
  refresher_state_of w = REFRESHING ->
  let w' := snd (_value_changed value w) in
  fst (_value_changed value w) = Return tt
  /\ refresher_state_of w' = IDLE
  /\ _refreshing (self w') = false
  /\ (_brightness (self w'), _state (self w'))
     = brightness_state (_value (self w))
  /\ timers w' = timers w
  /\ _timer (self w') = _timer (self w)
  /\ trace w' = (trace w ++ [(clock w, UpdateHaState)])%list
  /\ refreshes (trace w') = refreshes (trace w)
  /\ forall t,
       let w2 := notify t value w in
       refresher_state_of w2 = IDLE
       /\ (_brightness (self w2), _state (self w2)) = brightness_state value
       /\ timers w2 = timers w
       /\ refreshes (trace w2) = refreshes (trace w).
Proof.
  intros Hreach Hid Hst w'. subst w'.
  apply refreshing_state in Hst.
  assert (Hfin : all_finished (timers w)).
  { destruct (reachable_one_timer w Hreach)
      as [Hfin|[due (ts & _ & _ & _ & Hr)]]; [assumption|congruence]. }
  rewrite value_changed_refreshing by assumption.
  cbn [fst snd self timers trace].
  split; [reflexivity|]. split.
  { unfold refresher_state_of. cbn. now rewrite any_alive_finished. }
  split; [reflexivity|]. split.
  { cbn. now destruct (brightness_state (_value (self w))). }
  split; [reflexivity|]. split; [reflexivity|]. split; [reflexivity|].
  split.
  { rewrite refreshes_app. cbn. apply app_nil_r. }
  intros t. unfold notify.
  rewrite advance_idle by assumption. cbn [set_clock self].
  rewrite Hid, Z.eqb_refl.
  rewrite value_changed_refreshing by (reflexivity || assumption).
  cbn [snd self timers trace with_self].
  split.
  { unfold refresher_state_of. cbn. now rewrite any_alive_finished. }
  split.
  { cbn. now destruct (brightness_state value). }
  split; [reflexivity|].
  rewrite refreshes_app. cbn. apply app_nil_r.
Qed.

(** C8. A burst of matching reports, each less than 2000 ms after the
    one before, that begins while no refresh is in flight: every report
    cancels the pending timer and starts a new one, so that after the
    burst exactly one timer is alive, due 2000 ms after the last report;
    no refresh is requested during the burst, and once that time has come
    exactly one refresh request has been issued, at 2000 ms after the last
    report. *)
Theorem debounced_burst
  (w : world obj) (t1 : Z) (v1 : ZWaveValue Z)
  (evs : list (Z * ZWaveValue Z)) (T : Z) :
  reachable w ->
  clock w <= t1 ->
  refresher_state_of (advance_to t1 w) <> REFRESHING ->
  let id := value_id (_value (self w)) in
  value_id v1 = id ->
  burst_after id t1 evs ->
  last_time t1 evs + 2000 <= T ->
  let w' := run ((t1, v1) :: evs) w in
  timer_pending (last_time t1 evs + 2000) w'
  /\ refresher_state_of w' = TIMER_PENDING
  /\ List.length (timers w')
     = (List.length (timers w) + S (List.length evs))%nat
  /\ refreshes (trace w') = refreshes (trace w)
  /\ refreshes (trace (advance_to T w'))
     = (refreshes (trace w)
          ++ [(last_time t1 evs + 2000, Refresh id)])%list
  /\ refresher_state_of (advance_to T w') = REFRESHING.
Proof.
  intros Hreach Hclock Hst id Hid Hburst HT w'. subst id w'.
  assert (Hq : _refreshing (self (advance_to t1 w)) = false).
  { destruct (_refreshing (self (advance_to t1 w))) eqn:E; [|reflexivity].
    exfalso. apply Hst. now apply refreshing_state. }
  destruct (notify_quiet t1 v1 w (reachable_one_timer w Hreach)
              Hclock Hq Hid) as (Hp1 & Hc1 & Hid1 & Hl1 & Hr1).
  cbn [run]. rewrite <- Hid1 in Hburst.
  destruct (burst_run evs t1 _ Hp1 Hc1 Hburst)
    as (Hp2 & Hc2 & Hid2 & Hl2 & Hr2).
  destruct (pending_fires _ T _ Hp2 ltac:(lia)) as (Hf & Hrf & _).
  split; [exact Hp2|]. split; [exact (pending_state _ _ Hp2)|].
  split; [rewrite Hl2, Hl1; lia|]. split; [congruence|].
  split; [|now apply refreshing_state].
  rewrite Hf, Hr2, Hr1, Hid2, Hid1. reflexivity.
Qed.
End Refresher.

(** ** The properties on concrete lights *)

Section Concrete.
Existing Instance sample_color_util.
Import ZwaveColorLight.

(** The concrete lights are those [__init__] returns. *)
Example new_light_init :
  __init__ (dimmer_value node_up 99) [color_value node_up "#1A2B3C0000"]
    [channels_value node_up 31] = Return (self light_all)
  /\ __init__ (dimmer_value node_up 99) [color_value node_up "#00000080"]
       [channels_value node_up 29] = Return (self light_warm_rgb)
  /\ __init__ (dimmer_value node_up 99) [color_value node_up "#1A2B3C"]
       [channels_value node_up 28] = Return (self light_rgb)
  /\ __init__ (dimmer_value node_down 99)
       [color_value node_down "#1A2B3C0000"]
       [channels_value node_down 31] = Return (self light_down).
Proof. repeat split; reflexivity. Qed.

(** C1 as stated fails: both white channels, target 154 mireds, which is
    at most [TEMP_MID_HASS = 327]. The specification expects [#000000FF00];
    [turn_on] writes [#00000000FF]. *)
Lemma encode_two_white_as_stated_fails :
  ~ encode_two_white_as_stated light_all (kw_color_temp 154) 154.
Proof.
  intro H. specialize (H eq_refl eq_refl eq_refl).
  vm_compute in H. discriminate H.
Qed.

(** C1, amended, on a target of 400 mireds, above [TEMP_MID_HASS]. *)
Lemma turn_on_temperature_two_white_witness :
  ATTR_COLOR_TEMP (kw_color_temp 400) = Some 400%Q
  /\ has (_color_channels (self light_all)) COLOR_CHANNEL_WARM_WHITE = true
  /\ has (_color_channels (self light_all)) COLOR_CHANNEL_COLD_WHITE = true
  /\ exists payload,
       fst (turn_on (kw_color_temp 400) light_all) = Return tt
       /\ trace (snd (turn_on (kw_color_temp 400) light_all))
          = (trace light_all
               ++ writes light_all (kw_color_temp 400) payload)%list
       /\ ((TEMP_MID_HASS < 400)%Q -> payload = "#000000FF00")
       /\ ((400 <= TEMP_MID_HASS)%Q -> payload = "#00000000FF").
Proof.
  split; [reflexivity|]. split; [reflexivity|]. split; [reflexivity|].
  apply (turn_on_temperature_two_white light_all (kw_color_temp 400) 400);
    reflexivity.
Defined.

(** C2 as stated fails: warm white only, target 155 mireds. The channel
    value is [255 / 346], which rounds to 1 and truncates to 0: the
    specification expects [#00000001], [turn_on] writes [#0000000]. *)
Lemma encode_one_white_as_stated_fails :
  ~ encode_one_white_as_stated light_warm_rgb (kw_color_temp 155) 155.
Proof.
  intro H. specialize (H eq_refl eq_refl).
  vm_compute in H. discriminate H.
Qed.

(** What the one-channel branches write at the ends of the range: the
    channel value in decimal digits, one to three of them. *)
Example one_white_payloads :
  rgbw_payloads (trace (snd (turn_on (kw_color_temp 154) light_warm_rgb)))
  = ["#0000000"]
  /\ rgbw_payloads (trace (snd (turn_on (kw_color_temp 327) light_warm_rgb)))
     = ["#000000127"]
  /\ rgbw_payloads (trace (snd (turn_on (kw_color_temp 500) light_warm_rgb)))
     = ["#000000255"].
Proof. repeat split; reflexivity. Qed.

(** C2, amended, on the same call: the channel value is 0. *)
Lemma turn_on_temperature_one_white_witness :
  ATTR_COLOR_TEMP (kw_color_temp 155) = Some 155%Q
  /\ white_count (_color_channels (self light_warm_rgb)) = 1%nat
  /\ ~ (HASS_COLOR_MAX - HASS_COLOR_MIN == 0)%Q
  /\ exists level,
       fst (turn_on (kw_color_temp 155) light_warm_rgb) = Return tt
       /\ trace (snd (turn_on (kw_color_temp 155) light_warm_rgb))
          = (trace light_warm_rgb
               ++ writes light_warm_rgb (kw_color_temp 155)
                    ("#000000" ++ format level))%list
       /\ level = 0.
Proof.
  assert (Hne : ~ (HASS_COLOR_MAX - HASS_COLOR_MIN == 0)%Q)
    by (intro H; discriminate H).
  split; [reflexivity|]. split; [reflexivity|]. split; [exact Hne|].
  destruct (turn_on_temperature_one_white light_warm_rgb
              (kw_color_temp 155) 155 eq_refl eq_refl Hne)
    as (level & Hret & Htrace & Hwarm & _).
  exists level. split; [exact Hret|]. split; [exact Htrace|].
  rewrite (Hwarm eq_refl). reflexivity.
Defined.

(** C3 as stated fails: a device with RGB channels only gets two zero
    bytes all the same ([#ff00000000], where the specification expects
    [#FF0000]); and with both white channels the digits are lower-case
    ([#ff00000000], where the specification writes [#FF00000000]). *)
Lemma encode_rgb_as_stated_fails :
  ~ encode_rgb_as_stated light_rgb (kw_rgb [255; 0; 0]) 255 0 0
  /\ ~ encode_rgb_as_stated light_all (kw_rgb [255; 0; 0]) 255 0 0
  /\ rgbw_payloads (trace (snd (turn_on (kw_rgb [255; 0; 0]) light_rgb)))
     = ["#ff00000000"]
  /\ rgb_payload_as_stated 28 255 0 0 = "#FF0000".
Proof.
  split; [|split; [|split; reflexivity]];
    intro H; specialize (H eq_refl eq_refl);
    vm_compute in H; discriminate H.
Qed.

(** C3, amended, on the light with RGB channels only. *)
Lemma turn_on_rgb_witness :
  ATTR_COLOR_TEMP (kw_rgb [255; 0; 0]) = None
  /\ ATTR_RGB_COLOR (kw_rgb [255; 0; 0]) = Some [255; 0; 0]
  /\ rgbw_payloads (trace (snd (turn_on (kw_rgb [255; 0; 0]) light_rgb)))
     = (rgbw_payloads (trace light_rgb) ++ ["#ff00000000"])%list.
Proof.
  split; [reflexivity|]. split; [reflexivity|].
  apply (turn_on_rgb light_rgb (kw_rgb [255; 0; 0]) 255 0 0
           eq_refl eq_refl); try lia. reflexivity.
Defined.

(** C4 as stated fails: on a node that refuses every write, a call with
    brightness 100 and colour temperature 400 leaves the cached
    brightness at 100 (it was 255) and the cached colour temperature at
    [TEMP_WARM_HASS] (it was [TEMP_MID_HASS]). *)
Lemma failed_write_as_stated_fails :
  ~ failed_write_as_stated light_down
      {| ATTR_BRIGHTNESS := Some 100%Q; ATTR_COLOR_TEMP := Some 400%Q;
         ATTR_RGB_COLOR := None |}.
Proof.
  intro H. destruct (H (fun _ _ => eq_refl) (fun _ _ => eq_refl))
    as (Hbrightness & _).
  vm_compute in Hbrightness. discriminate Hbrightness.
Qed.

(** C4, amended, on the same call: the state stays on, as it was. *)
Lemma turn_on_failed_write_witness :
  let kw := {| ATTR_BRIGHTNESS := Some 100%Q; ATTR_COLOR_TEMP := Some 400%Q;
               ATTR_RGB_COLOR := None |} in
  let v := ZwaveDimmer._value (super (self light_down)) in
  set_dimmer (node v) (value_id v)
    (dimmer_level kw (ZwaveDimmer._brightness (super (self light_down))))
  = false
  /\ ZwaveDimmer._state (super (self (snd (turn_on kw light_down))))
     = STATE_ON
  /\ ZwaveDimmer._brightness (super (self (snd (turn_on kw light_down))))
     = 100%Q
  /\ _ct (self (snd (turn_on kw light_down))) = Some TEMP_WARM_HASS.
Proof.
  intros kw v.
  destruct (turn_on_failed_write light_down kw eq_refl)
    as (_ & Hstate & Hbright & Hct & _).
  split; [reflexivity|]. split; [exact Hstate|].
  split; [exact (Hbright _ eq_refl eq_refl)|].
  exact (Hct _ eq_refl eq_refl).
Defined.

(** C5 as stated fails: called with no keyword argument, [turn_on]
    returns and the dimmer write (level 99) is in the trace. *)
Lemma encode_nothing_as_stated_fails :
  ~ encode_nothing_as_stated light_all no_kwargs.
Proof.
  intro H. destruct (H eq_refl eq_refl) as ([e He] & _).
  vm_compute in He. discriminate He.
Qed.

(** C5, amended, on the same call. *)
Lemma turn_on_without_colour_witness :
  ATTR_COLOR_TEMP no_kwargs = None
  /\ ATTR_RGB_COLOR no_kwargs = None
  /\ fst (turn_on no_kwargs light_all) = Return tt
  /\ dimmer_levels (trace (snd (turn_on no_kwargs light_all))) = [99].
Proof.
  destruct (turn_on_without_colour light_all no_kwargs eq_refl eq_refl)
    as (Hret & _ & _ & Hlevels).
  split; [reflexivity|]. split; [reflexivity|]. split; [exact Hret|].
  rewrite Hlevels. reflexivity.
Defined.

(** C6 as stated fails, on the scenario of the specification: the
    capabilities are the two white channels only and the payload is
    [#1A2B3CFF00]. The temperature is [TEMP_WARM_HASS], but the rgb value
    is [None], not the RGB equivalent of the temperature. *)
Lemma decode_two_white_as_stated_fails :
  ~ decode_two_white_as_stated
      (under_construction node_up 3 "#1A2B3CFF00") 26 43 60 255 0.
Proof.
  intro H.
  destruct (H eq_refl eq_refl eq_refl eq_refl eq_refl eq_refl eq_refl)
    as (Hwarm & _).
  destruct (Hwarm eq_refl) as (_ & Hrgb).
  vm_compute in Hrgb. discriminate Hrgb.
Qed.

(** The scenarios of the specification that have an RGB channel: extra
    bytes [0000] give [TEMP_MID_HASS] and the parsed bytes; RGB channels
    only give no temperature and the parsed bytes. *)
Example decode_scenarios :
  (let o := snd (update_properties
                   (under_construction node_up 31 "#1A2B3C0000")) in
   color_temp o = Some TEMP_MID_HASS /\ rgb_color o = Some [26; 43; 60])
  /\ (let o := snd (update_properties
                      (under_construction node_up 28 "#1A2B3C")) in
      color_temp o = None /\ rgb_color o = Some [26; 43; 60]).
Proof. repeat split; reflexivity. Qed.

(** C6, amended, on the payload [#1A2B3CFF00] of a light with all five
    channels. *)
Lemma decode_two_white_witness :
  let o := under_construction node_up 31 "#1A2B3CFF00" in
  int16 (slice (data (_value_color o)) 7 9) = Return 255
  /\ int16 (slice (data (_value_color o)) 9 11) = Return 0
  /\ fst (update_properties o) = Return tt
  /\ color_temp (snd (update_properties o)) = Some TEMP_WARM_HASS
  /\ rgb_color (snd (update_properties o))
     = Some (ct_to_rgb TEMP_WARM_HASS).
Proof.
  intro o.
  destruct (decode_two_white o 26 43 60 255 0
              eq_refl eq_refl eq_refl eq_refl eq_refl eq_refl eq_refl)
    as (Hret & Hwarm & _).
  destruct (Hwarm eq_refl) as (Hct & Hrgb).
  split; [reflexivity|]. split; [reflexivity|]. split; [exact Hret|].
  split; [exact Hct|exact Hrgb].
Defined.

(** C7 on a light with RGB channels only and on one with the two white
    channels only. *)
Lemma decode_absent_groups_witness :
  let o := under_construction node_up 28 "#1A2B3C" in
  let o' := snd (update_properties o) in
  let white := under_construction node_up 3 "#1A2B3CFF00" in
  _ct o = None
  /\ update_properties o = (Return tt, o')
  /\ has_white 28 = false
  /\ color_temp o' = None
  /\ rgb_color o' = Some [26; 43; 60]
  /\ rgb_color (snd (update_properties white)) = None.
Proof.
  intros o o' white.
  assert (Hrun : update_properties o = (Return tt, o')) by reflexivity.
  assert (Hrun' : update_properties white
                  = (Return tt, snd (update_properties white)))
    by reflexivity.
  split; [reflexivity|]. split; [exact Hrun|]. split; [reflexivity|].
  split; [exact (proj1 (decode_absent_groups o o' eq_refl Hrun) eq_refl)|].
  split; [reflexivity|].
  exact (proj2 (decode_absent_groups white _ eq_refl Hrun') eq_refl).
Defined.
End Concrete.

Section ConcreteRefresher.
Import ZwaveDimmer.

(** C9 on a dimmer whose refresh is in flight. *)
Lemma notification_while_refreshing_witness :
  let value := dimmer_value node_up 60 in
  let w' := snd (_value_changed value dimmer_refreshing) in
  reachable dimmer_refreshing
  /\ value_id (_value (self dimmer_refreshing)) = value_id value
  /\ refresher_state_of dimmer_refreshing = REFRESHING
  /\ refresher_state_of w' = IDLE
  /\ timers w' = timers dimmer_refreshing
  /\ refreshes (trace w') = refreshes (trace dimmer_refreshing).
Proof.
  intros value w'.
  assert (Hreach : reachable dimmer_refreshing)
    by (apply reach_advance, reach_notify, reach_init).
  destruct (notification_while_refreshing dimmer_refreshing value
              Hreach eq_refl eq_refl)
    as (_ & Hidle & _ & _ & Htimers & _ & _ & Hrefreshes & _).
  split; [exact Hreach|]. split; [reflexivity|]. split; [reflexivity|].
  split; [exact Hidle|]. split; [exact Htimers|exact Hrefreshes].
Defined.

(** C8 on the scenario of the specification: reports at 0, 500 and
    1000 ms, then silence. One refresh request, at 3000 ms. *)
Lemma debounced_burst_witness :
  let v := dimmer_value node_up 50 in
  let w' := run [(0, v); (500, v); (1000, v)] dimmer_new in
  reachable dimmer_new
  /\ clock dimmer_new <= 0
  /\ refresher_state_of (advance_to 0 dimmer_new) <> REFRESHING
  /\ burst_after 1 0 [(500, v); (1000, v)]
  /\ List.length (timers w') = 3%nat
  /\ refreshes (trace (advance_to 5000 w')) = [(3000, Refresh 1)].
Proof.
  intros v w'.
  assert (Hreach : reachable dimmer_new) by apply reach_init.
  assert (Hclock : clock dimmer_new <= 0) by (cbn; lia).
  assert (Hstate : refresher_state_of (advance_to 0 dimmer_new)
                   <> REFRESHING) by discriminate.
  assert (Hburst : burst_after (value_id (_value (self dimmer_new))) 0
                     [(500, v); (1000, v)])
    by (cbn; repeat split; lia).
  assert (Hlast : last_time 0 [(500, v); (1000, v)] + 2000 <= 5000)
    by (cbn; lia).
  destruct (debounced_burst dimmer_new 0 v [(500, v); (1000, v)] 5000
              Hreach Hclock Hstate eq_refl Hburst Hlast)
    as (_ & _ & Hlen & _ & Hrefreshes & _).
  split; [exact Hreach|]. split; [exact Hclock|]. split; [exact Hstate|].
  split; [exact Hburst|]. split; [exact Hlen|exact Hrefreshes].
Defined.
End ConcreteRefresher.

(** * Further properties of the module *)

(** ** Arithmetic of [int] *)

Lemma int_between (x : Q) (a b : Z) :
  0 <= a -> (inject_Z a <= x)%Q -> (x <= inject_Z b)%Q -> a <= int x <= b.
Proof.
  intros Ha Hl Hu. unfold int.
  assert (H0 : (0 <= x)%Q).
  { apply Qle_trans with (inject_Z a); [|assumption].
    unfold Qle. simpl. lia. }
  apply Qle_bool_iff in H0. rewrite H0. split.
  - rewrite <- (Qfloor_Z a). now apply Qfloor_resp_le.
  - rewrite <- (Qfloor_Z b). now apply Qfloor_resp_le.
Qed.

Lemma int_comp (x y : Q) : (x == y)%Q -> int x = int y.
Proof.
  intro E. unfold int.
  assert (Hb : Qle_bool 0 x = Qle_bool 0 y).
  { destruct (Qle_bool 0 x) eqn:Ex, (Qle_bool 0 y) eqn:Ey; try reflexivity.
    - apply Qle_bool_iff in Ex. rewrite E in Ex. apply Qle_bool_iff in Ex.
      congruence.
    - apply Qle_bool_iff in Ey. rewrite <- E in Ey. apply Qle_bool_iff in Ey.
      congruence. }
  rewrite Hb. destruct (Qle_bool 0 y).
  - now apply Qfloor_comp.
  - now apply Qceiling_comp.
Qed.

(** ** Brightness and level of the dimmer *)

(** X1. The brightness [brightness_state] reports is within the range the
    [brightness] property documents, above 0 and at most 255, for every
    raw level up to 99; a raw level above 99 gives a brightness above
    255. *)
Theorem brightness_in_range (value : ZWaveValue Z) :
  (data value <= 99 -> (0 < fst (brightness_state value) <= 255)%Q)
  /\ (99 < data value -> (255 < fst (brightness_state value))%Q).
Proof.
  unfold brightness_state. split; intro H.
  - destruct (data value >? 0) eqn:E; cbn [fst].
    + rewrite Z.gtb_ltb, Z.ltb_lt in E.
      unfold Qlt, Qle, Qdiv, Qmult, Qinv. simpl. lia.
    + split; [reflexivity|apply Qle_refl].
  - replace (data value >? 0) with true
      by (symmetry; rewrite Z.gtb_ltb; apply Z.ltb_lt; lia).
    cbn [fst]. unfold Qlt, Qdiv, Qmult, Qinv. simpl. lia.
Qed.

(** X1 at the raw levels 50 and 255. *)
Lemma brightness_in_range_witness :
  data (dimmer_value node_up 50) <= 99
  /\ (0 < fst (brightness_state (dimmer_value node_up 50)) <= 255)%Q
  /\ 99 < data (dimmer_value node_up 255)
  /\ (255 < fst (brightness_state (dimmer_value node_up 255)))%Q.
Proof.
  assert (H1 : data (dimmer_value node_up 50) <= 99) by (cbn; lia).
  assert (H2 : 99 < data (dimmer_value node_up 255)) by (cbn; lia).
  split; [exact H1|].
  split; [exact (proj1 (brightness_in_range _) H1)|].
  split; [exact H2|exact (proj2 (brightness_in_range _) H2)].
Defined.

Section DimmerLevels.
Import ZwaveDimmer.

(** X2. [ZwaveDimmer.turn_on] writes a level between 0 and 99 whenever the
    brightness it uses, the requested one or else the cached one, is
    between 0 and 255; brightness 255 gives level 99 and brightness 0
    gives level 0. *)
Theorem turn_on_level_in_range (kw : kwargs) (w : world obj) :
  let b := _brightness (requested_brightness kw (self w)) in
  (0 <= b <= 255)%Q ->
  exists level,
    dimmer_levels (trace (snd (turn_on kw w)))
    = (dimmer_levels (trace w) ++ [level])%list
    /\ 0 <= level <= 99
    /\ ((b == 255)%Q -> level = 99)
    /\ ((b == 0)%Q -> level = 0).
Proof.
  intros b [Hl Hu]. exists (dimmer_level kw (_brightness (self w))).
  rewrite dimmer_turn_on_eq. cbn [snd trace].
  rewrite dimmer_levels_app. cbn.
  assert (Hb : dimmer_level kw (_brightness (self w))
               = int ((b / 255) * 99)%Q).
  { subst b. unfold dimmer_level, requested_brightness.
    destruct (ATTR_BRIGHTNESS kw); reflexivity. }
  rewrite Hb. split; [reflexivity|]. split; [|split].
  - apply int_between; [lia| |].
    + change (inject_Z 0) with 0%Q.
      apply Qmult_le_0_compat; [|discriminate].
      apply Qle_shift_div_l; [reflexivity|]. now rewrite Qmult_0_l.
    + change (inject_Z 99) with (1 * 99)%Q.
      apply Qmult_le_compat_r; [|discriminate].
      apply Qle_shift_div_r; [reflexivity|]. now rewrite Qmult_1_l.
  - intro E. rewrite (int_comp _ 99); [reflexivity|]. now rewrite E.
  - intro E. rewrite (int_comp _ 0); [reflexivity|]. now rewrite E.
Qed.

(** X2 on a request for brightness 128. *)
Lemma turn_on_level_in_range_witness :
  (0 <= _brightness (requested_brightness (kw_brightness 128)
                       (self dimmer_new)) <= 255)%Q
  /\ exists level,
       dimmer_levels (trace (snd (turn_on (kw_brightness 128) dimmer_new)))
       = [level]
       /\ 0 <= level <= 99.
Proof.
  assert (H : (0 <= _brightness (requested_brightness (kw_brightness 128)
                                   (self dimmer_new)) <= 255)%Q)
    by (split; discriminate).
  split; [exact H|].
  destruct (turn_on_level_in_range (kw_brightness 128) dimmer_new H)
    as (level & Hlevels & Hrange & _).
  exists level. split; [exact Hlevels|exact Hrange].
Defined.

(** X3. A light whose value reports a level of 0 (or below) is cached as
    off with brightness 255, so that the next [turn_on] without a
    brightness writes the full level 99. *)
Theorem turn_on_after_off_report (w : world obj) :
  data (_value (self w)) <= 0 ->
  let w1 := snd (on_self update_properties w) in
  is_on (self w1) = false
  /\ dimmer_levels (trace (snd (turn_on no_kwargs w1)))
     = (dimmer_levels (trace w) ++ [99])%list.
Proof.
  intros H w1. subst w1. unfold update_properties. run_method.
  unfold brightness_state.
  replace (data (_value (self w)) >? 0) with false
    by (symmetry; rewrite Z.gtb_ltb; apply Z.ltb_ge; lia).
  cbv beta iota zeta. cbn [snd]. split; [reflexivity|].
  rewrite dimmer_turn_on_eq. cbn [snd trace self].
  rewrite dimmer_levels_app. reflexivity.
Qed.

(** X3 on a dimmer created at level 40 whose value then reports 0. *)
Lemma turn_on_after_off_report_witness :
  let w := with_self (set_value (dimmer_value node_up 0) (self dimmer_new))
             dimmer_new in
  data (_value (self w)) <= 0
  /\ dimmer_levels
       (trace (snd (turn_on no_kwargs (snd (on_self update_properties w)))))
     = [99].
Proof.
  intro w. assert (H : data (_value (self w)) <= 0) by (cbn; lia).
  split; [exact H|]. exact (proj2 (turn_on_after_off_report w H)).
Defined.

(** The whole of [turn_off]: one [set_dimmer] call with level 0; the state
    is cleared only if the node answered true. *)
Lemma turn_off_eq (w : world obj) :
  turn_off w =
  let v := _value (self w) in
  (Return tt,
   {| self := if set_dimmer (node v) (value_id v) 0
              then set_state STATE_OFF (self w) else self w;
      clock := clock w; timers := timers w;
      trace := trace w ++ [(clock w, SetDimmer (value_id v) 0)] |}).
Proof.
  unfold turn_off, call_set_dimmer. run_method.
  destruct (set_dimmer _ _ _); reflexivity.
Qed.


End DimmerLevels.

(** ** The refresher over time *)

Section RefresherInvariants.
Import ZwaveDimmer.

Lemma alive_count_finished ts : all_finished ts -> alive_count ts = 0%nat.
Proof.
  induction 1 as [|tm ts Htm _ IH]; [reflexivity|].
  unfold alive_count in *. cbn [filter]. now rewrite Htm.
Qed.

Lemma alive_count_app a b :
  alive_count (a ++ b) = (alive_count a + alive_count b)%nat.
Proof. unfold alive_count. now rewrite filter_app, length_app. Qed.

Lemma alive_count_pending due w :
  timer_pending due w -> alive_count (timers w) = 1%nat.
Proof.
  intros (ts & Hts & Hfin & _). rewrite Hts, alive_count_app.
  now rewrite alive_count_finished.
Qed.

(** X5. In every state the dimmer can reach at most one timer is alive,
    none is alive while a refresh is in flight, and a timer that is alive
    is the one [_timer] refers to. *)
Theorem at_most_one_timer_alive (w : world obj) :
  reachable w ->
  (alive_count (timers w) <= 1)%nat
  /\ (_refreshing (self w) = true -> alive_count (timers w) = 0%nat)
  /\ (alive_count (timers w) = 1%nat ->
      exists r tm, _timer (self w) = Some r
                   /\ nth_error (timers w) r = Some tm
                   /\ finished tm = false).
Proof.
  intro H. destruct (reachable_one_timer w H) as [Hfin|[due Hp]].
  - rewrite (alive_count_finished _ Hfin). repeat split; try lia; discriminate.
  - rewrite (alive_count_pending due w Hp).
    destruct Hp as (ts & Hts & Hfin & Ht & Hr).
    split; [lia|]. split; [congruence|]. intros _.
    exists (List.length ts), {| fire_at := due; finished := false |}.
    split; [assumption|]. split; [|reflexivity].
    rewrite Hts, nth_error_app2, Nat.sub_diag by lia. reflexivity.
Qed.

(** X5 on a dimmer that saw two reports 500 ms apart: two timers exist,
    one is alive. *)
Lemma at_most_one_timer_alive_witness :
  let v := dimmer_value node_up 50 in
  let w := run [(0, v); (500, v)] dimmer_new in
  reachable w
  /\ List.length (timers w) = 2%nat
  /\ (alive_count (timers w) <= 1)%nat.
Proof.
  intros v w.
  assert (H : reachable w) by (apply reach_notify, reach_notify, reach_init).
  split; [exact H|]. split; [reflexivity|].
  exact (proj1 (at_most_one_timer_alive w H)).
Defined.

(** X6. A refresh in flight has no time-out: as long as no matching report
    arrives the dimmer stays in the refreshing state, whatever time
    passes, and nothing is requested again. *)
Theorem refresh_has_no_timeout (w : world obj) (T : Z) :
  reachable w ->
  refresher_state_of w = REFRESHING ->
  let w' := advance_to T w in
  refresher_state_of w' = REFRESHING
  /\ self w' = self w /\ timers w' = timers w /\ trace w' = trace w.
Proof.
  intros Hreach Hst w'. subst w'.
  pose proof Hst as Hr. apply refreshing_state in Hr.
  assert (Hfin : all_finished (timers w)).
  { destruct (reachable_one_timer w Hreach)
      as [Hfin|[due (ts & _ & _ & _ & Hr')]]; [assumption|congruence]. }
  rewrite advance_idle by assumption.
  split; [exact Hst|]. repeat split.
Qed.

(** X6 on a dimmer whose refresh was requested at 2000 ms, an hour
    later. *)
Lemma refresh_has_no_timeout_witness :
  reachable dimmer_refreshing
  /\ refresher_state_of dimmer_refreshing = REFRESHING
  /\ refresher_state_of (advance_to 3600000 dimmer_refreshing) = REFRESHING
  /\ trace (advance_to 3600000 dimmer_refreshing) = trace dimmer_refreshing.
Proof.
  assert (H : reachable dimmer_refreshing)
    by (apply reach_advance, reach_notify, reach_init).
  destruct (refresh_has_no_timeout dimmer_refreshing 3600000 H eq_refl)
    as (Hst & _ & _ & Htrace).
  split; [exact H|]. split; [reflexivity|]. split; [exact Hst|exact Htrace].
Defined.

(** X7. A matching report that arrives while no refresh is in flight does
    not touch the cached brightness and state, although the value already
    holds the new data; the host is told that the state changed all the
    same. The cache follows only when the refresh result arrives. *)
Theorem report_outside_refresh (w : world obj) (t : Z) (value : ZWaveValue Z) :
  reachable w ->
  value_id value = value_id (_value (self w)) ->
  refresher_state_of (advance_to t w) <> REFRESHING ->
  let w' := notify t value w in
  _brightness (self w') = _brightness (self w)
  /\ _state (self w') = _state (self w)
  /\ _value (self w') = value
  /\ trace w' = (trace w ++ [(Z.max (clock w) t, UpdateHaState)])%list.
Proof.
  intros Hreach Hid Hst w'. subst w'.
  assert (Hq : _refreshing (self (advance_to t w)) = false).
  { destruct (_refreshing (self (advance_to t w))) eqn:E; [|reflexivity].
    exfalso. apply Hst. now apply refreshing_state. }
  pose proof (reachable_one_timer w Hreach) as Hone.
  unfold notify. pose proof (advance_quiet t w Hone Hq) as Hadv.
  rewrite Hadv in Hq |- *. clear Hadv.
  cbn [set_clock self clock] in Hq |- *. rewrite <- Hid, Z.eqb_refl.
  set (w2 := with_self _ _).
  assert (Hid2 : value_id (_value (self w2)) = value_id value) by reflexivity.
  assert (Hr2 : _refreshing (self w2) = false) by exact Hq.
  destruct Hone as [Hfin|[due (ts & Hts & Hfin & Ht & _)]].
  - rewrite value_changed_idle by assumption. repeat split.
  - rewrite (value_changed_pending value w2 due ts) by assumption.
    repeat split.
Qed.

(** X7 on a dimmer created at level 40 (brightness 40/99*255, on) whose
    value reports 0: it is still cached as on. *)
Lemma report_outside_refresh_witness :
  let v := dimmer_value node_up 0 in
  let w' := notify 100 v dimmer_new in
  reachable dimmer_new
  /\ value_id v = value_id (_value (self dimmer_new))
  /\ refresher_state_of (advance_to 100 dimmer_new) <> REFRESHING
  /\ data (_value (self w')) = 0
  /\ is_on (self w') = true
  /\ trace w' = [(100, UpdateHaState)].
Proof.
  intros v w'. subst w'.
  assert (H : reachable dimmer_new) by apply reach_init.
  assert (Hst : refresher_state_of (advance_to 100 dimmer_new) <> REFRESHING)
    by discriminate.
  destruct (report_outside_refresh dimmer_new 100 v H eq_refl Hst)
    as (_ & Hstate & Hvalue & Htrace).
  split; [exact H|]. split; [reflexivity|]. split; [exact Hst|].
  split; [now rewrite Hvalue|]. split; [|exact Htrace].
  unfold is_on. now rewrite Hstate.
Defined.

Lemma run_due_value t ts w :
  _value (self (snd (run_due t ts w))) = _value (self w).
Proof.
  revert w. induction ts as [|tm ts IH]; intro w; [reflexivity|].
  cbn [run_due]. destruct (negb (finished tm) && (fire_at tm <=? t)).
  - destruct (run_due t ts _) as [ts2 w2] eqn:E. cbn [snd].
    change w2 with (snd (ts2, w2)). rewrite <- E, IH. reflexivity.
  - destruct (run_due t ts w) as [ts2 w2] eqn:E. cbn [snd].
    change w2 with (snd (ts2, w2)). rewrite <- E, IH. reflexivity.
Qed.

Lemma advance_value t w : _value (self (advance_to t w)) = _value (self w).
Proof.
  unfold advance_to. pose proof (run_due_value t (timers w) w) as H.
  destruct (run_due t (timers w) w) as [ts w']. exact H.
Qed.

Lemma pass_time_idle (times : list Z) :
  forall w : world obj,
    all_finished (timers w) ->
    self (pass_time times w) = self w
    /\ timers (pass_time times w) = timers w
    /\ trace (pass_time times w) = trace w.
Proof.
  induction times as [|t times IH]; intros w H; [repeat split|].
  cbn [pass_time fold_left]. rewrite advance_idle by assumption.
  apply (IH (set_clock t w)). exact H.
Qed.

(** X8. Reports about other values are ignored: a sequence of them has
    no effect beyond the passing of time, and with no timer alive it leaves
    the dimmer, the timers and the trace as they were. *)
Theorem other_reports_ignored (evs : list (Z * ZWaveValue Z)) :
  forall w : world obj,
    Forall (fun ev => value_id (snd ev) <> value_id (_value (self w))) evs ->
    run evs w = pass_time (map fst evs) w
    /\ (all_finished (timers w) ->
        self (run evs w) = self w
        /\ timers (run evs w) = timers w
        /\ trace (run evs w) = trace w).
Proof.
  assert (Hrun : forall w : world obj,
             Forall (fun ev => value_id (snd ev)
                               <> value_id (_value (self w))) evs ->
             run evs w = pass_time (map fst evs) w).
  { induction evs as [|[t value] evs IH]; intros w H; [reflexivity|].
    inversion H as [|? ? Hev Hrest]; subst. cbn [snd] in Hev.
    cbn [run map fst pass_time fold_left].
    assert (Hn : notify t value w = advance_to t w).
    { unfold notify. rewrite advance_value.
      destruct (Z.eqb_spec (value_id (_value (self w))) (value_id value));
        [congruence|].
      rewrite value_changed_other; [reflexivity|].
      rewrite advance_value. congruence. }
    rewrite Hn. apply IH. rewrite advance_value. exact Hrest. }
  intros w H. split; [now apply Hrun|].
  intro Hfin. rewrite (Hrun w H). now apply pass_time_idle.
Qed.

(** X8 on two reports about value 9 sent to the dimmer of value 1. *)
Lemma other_reports_ignored_witness :
  let other := {| value_id := 9; instance := 1; data := 7;
                  node := node_up |} in
  let evs := [(100, other); (300, other)] in
  Forall (fun ev => value_id (snd ev)
                    <> value_id (_value (self dimmer_new))) evs
  /\ all_finished (timers dimmer_new)
  /\ self (run evs dimmer_new) = self dimmer_new
  /\ timers (run evs dimmer_new) = []
  /\ trace (run evs dimmer_new) = [].
Proof.
  intros other evs.
  assert (H : Forall (fun ev => value_id (snd ev)
                                <> value_id (_value (self dimmer_new))) evs)
    by (repeat constructor; discriminate).
  assert (Hfin : all_finished (timers dimmer_new)) by constructor.
  split; [exact H|]. split; [exact Hfin|].
  exact (proj2 (other_reports_ignored evs dimmer_new H) Hfin).
Defined.

Lemma budget_advance t w :
  one_timer w -> refresh_budget w -> refresh_budget (advance_to t w).
Proof.
  unfold refresh_budget. intros [Hfin|[due Hp]] H.
  - now rewrite advance_idle.
  - destruct (Z.lt_ge_cases t due) as [Hlt|Hge].
    + now rewrite (advance_not_due t due).
    + pose proof (alive_count_pending due w Hp) as Ha.
      destruct Hp as (ts & Hts & Hfin & _).
      rewrite (advance_due t due w ts) by assumption.
      cbn [trace timers]. rewrite refreshes_app, !length_app.
      rewrite alive_count_app, (alive_count_finished ts Hfin).
      rewrite Ha, Hts, length_app in H. cbn in *. lia.
Qed.

Lemma budget_value_changed value w :
  one_timer w -> refresh_budget w ->
  refresh_budget (snd (_value_changed value w)).
Proof.
  unfold refresh_budget. intros Hone H.
  destruct (Z.eq_dec (value_id (_value (self w))) (value_id value))
    as [Hid|Hid]; [|now rewrite value_changed_other].
  destruct (_refreshing (self w)) eqn:Hr.
  - rewrite value_changed_refreshing by assumption. cbn [snd trace timers].
    rewrite refreshes_app. cbn. now rewrite app_nil_r.
  - destruct Hone as [Hfin|[due Hp]].
    + rewrite value_changed_idle by assumption. cbn [snd trace timers].
      rewrite refreshes_app, alive_count_app, !length_app. cbn. lia.
    + pose proof (alive_count_pending due w Hp) as Ha.
      destruct Hp as (ts & Hts & Hfin & Ht & _).
      rewrite (value_changed_pending value w due ts) by assumption.
      cbn [snd trace timers].
      rewrite refreshes_app, !alive_count_app, !length_app.
      rewrite (alive_count_finished ts Hfin).
      rewrite Ha, Hts, length_app in H. cbn in *. lia.
Qed.

Lemma reachable_budget w : reachable w -> refresh_budget w.
Proof.
  induction 1 as [value t0|t value w Hw IH|t w Hw IH|kw w Hw IH|w Hw IH].
  - unfold refresh_budget. cbn. lia.
  - unfold notify. apply budget_value_changed.
    + destruct (_ =? _); [|now apply one_timer_advance, reachable_one_timer].
      eapply one_timer_same;
        [| | |apply (one_timer_advance t w (reachable_one_timer w Hw))];
        reflexivity.
    + pose proof (budget_advance t w (reachable_one_timer w Hw) IH) as Hb.
      destruct (_ =? _); exact Hb.
  - apply budget_advance; [now apply reachable_one_timer|exact IH].
  - unfold refresh_budget in *. rewrite dimmer_turn_on_eq.
    cbn [snd trace timers]. rewrite refreshes_app. cbn.
    now rewrite app_nil_r.
  - unfold refresh_budget in *. rewrite turn_off_eq.
    cbn [snd trace timers]. rewrite refreshes_app. cbn.
    now rewrite app_nil_r.
Qed.

(** X9. Debouncing never adds traffic: in every state the dimmer can
    reach, the refresh requests issued so far and the timers still alive
    are together no more than the timers started, one per handled
    report. *)
Theorem refreshes_bounded_by_timers (w : world obj) :
  reachable w ->
  (List.length (refreshes (trace w)) + alive_count (timers w)
   <= List.length (timers w))%nat.
Proof. exact (reachable_budget w). Qed.

(** X9 after three reports in a burst and the time for the timer to run:
    three timers, one refresh request. *)
Lemma refreshes_bounded_by_timers_witness :
  let v := dimmer_value node_up 50 in
  let w := advance_to 5000 (run [(0, v); (500, v); (1000, v)] dimmer_new) in
  reachable w
  /\ List.length (timers w) = 3%nat
  /\ List.length (refreshes (trace w)) = 1%nat
  /\ (List.length (refreshes (trace w)) + alive_count (timers w)
      <= List.length (timers w))%nat.
Proof.
  intros v w.
  assert (H : reachable w)
    by (apply reach_advance, reach_notify, reach_notify, reach_notify,
          reach_init).
  split; [exact H|]. split; [reflexivity|]. split; [reflexivity|].
  exact (refreshes_bounded_by_timers w H).
Defined.

(** X10. A whole cycle: a matching report while no refresh is in flight,
    then a second one 2000 ms later or more. The timer of the first has
    run by then, so exactly one refresh was requested, 2000 ms after the
    first report; the second report ends it, the cache holds the
    brightness and state of the second report, and the refresher is idle
    again. *)
Theorem refresh_cycle
  (w : world obj) (t1 t2 : Z) (v1 v2 : ZWaveValue Z) :
  reachable w ->
  clock w <= t1 ->
  refresher_state_of (advance_to t1 w) <> REFRESHING ->
  let id := value_id (_value (self w)) in
  value_id v1 = id -> value_id v2 = id ->
  t1 + 2000 <= t2 ->
  let w' := notify t2 v2 (notify t1 v1 w) in
  refresher_state_of w' = IDLE
  /\ (_brightness (self w'), _state (self w')) = brightness_state v2
  /\ refreshes (trace w')
     = (refreshes (trace w) ++ [(t1 + 2000, Refresh id)])%list.
Proof.
  intros Hreach Hclock Hst id Hid1 Hid2 Ht w'. subst id w'.
  assert (Hq : _refreshing (self (advance_to t1 w)) = false).
  { destruct (_refreshing (self (advance_to t1 w))) eqn:E; [|reflexivity].
    exfalso. apply Hst. now apply refreshing_state. }
  destruct (notify_quiet t1 v1 w (reachable_one_timer w Hreach)
              Hclock Hq Hid1) as (Hp1 & Hc1 & Hidw & _ & Hr1).
  set (w1 := notify t1 v1 w) in *.
  destruct (pending_fires (t1 + 2000) t2 w1 Hp1 ltac:(lia))
    as (Hf & Hrf & Hfin).
  set (wa := advance_to t2 w1) in *.
  assert (Hida : value_id (_value (self wa)) = value_id v2).
  { subst wa. rewrite advance_value. congruence. }
  assert (Hn : notify t2 v2 w1
               = snd (_value_changed v2
                        (with_self (set_value v2 (self wa)) wa))).
  { unfold notify. fold wa. now rewrite Hida, Z.eqb_refl. }
  rewrite Hn, value_changed_refreshing by (reflexivity || assumption).
  cbn [snd self timers trace with_self set_value _value].
  split.
  { unfold refresher_state_of. cbn. now rewrite any_alive_finished. }
  split.
  { cbn. now destruct (brightness_state v2). }
  rewrite refreshes_app, Hf, Hr1, Hidw. cbn. now rewrite app_nil_r.
Qed.

(** X10 on reports at 0 and 2500 ms: the refresh is requested at 2000 ms
    and the light is cached as off. *)
Lemma refresh_cycle_witness :
  let w' := notify 2500 (dimmer_value node_up 0)
              (notify 0 (dimmer_value node_up 50) dimmer_new) in
  reachable dimmer_new
  /\ refresher_state_of (advance_to 0 dimmer_new) <> REFRESHING
  /\ refresher_state_of w' = IDLE
  /\ is_on (self w') = false
  /\ refreshes (trace w') = [(2000, Refresh 1)].
Proof.
  intro w'. subst w'.
  assert (H : reachable dimmer_new) by apply reach_init.
  assert (Hst : refresher_state_of (advance_to 0 dimmer_new) <> REFRESHING)
    by discriminate.
  destruct (refresh_cycle dimmer_new 0 2500 (dimmer_value node_up 50)
              (dimmer_value node_up 0) H ltac:(cbn; lia) Hst eq_refl eq_refl
              ltac:(lia))
    as (Hidle & Hcache & Hrefreshes).
  split; [exact H|]. split; [exact Hst|]. split; [exact Hidle|].
  split; [|exact Hrefreshes].
  apply (f_equal snd) in Hcache. cbn [snd] in Hcache.
  unfold is_on. now rewrite Hcache.
Defined.
End RefresherInvariants.

(** ** Encoding and decoding colours *)

(** Two hexadecimal digits of a byte convert back to the byte. *)
Lemma int16_hex2 (n : Z) : 0 <= n <= 255 -> int16 (hex2 n) = Return n.
Proof.
  intro Hn.
  assert (Hall : forallb (fun k => match int16 (hex2 k) with
                                   | Return m => m =? k
                                   | Raise _ => false
                                   end)
                         (map Z.of_nat (seq 0 256)) = true)
    by (vm_compute; reflexivity).
  rewrite forallb_forall in Hall.
  assert (Hin : In n (map Z.of_nat (seq 0 256))).
  { apply in_map_iff. exists (Z.to_nat n). split; [lia|]. apply in_seq. lia. }
  specialize (Hall n Hin). destruct (int16 (hex2 n)) as [m|e].
  - f_equal. now apply Z.eqb_eq.
  - discriminate Hall.
Qed.

(** A level written in decimal digits and converted as hexadecimal: the
    two characters after the prefix give the level back only below 10. *)
Lemma decimal_read_as_hex (level : Z) :
  0 <= level <= 255 ->
  exists back,
    int16 (slice ("#000000" ++ format level) 7 9) = Return back
    /\ (back = level <-> level < 10).
Proof.
  intro Hn.
  assert (Hall : forallb (fun k => match int16 (slice ("#000000" ++ format k) 7 9) with
                                   | Return m => Bool.eqb (m =? k) (k <? 10)
                                   | Raise _ => false
                                   end)
                         (map Z.of_nat (seq 0 256)) = true)
    by (vm_compute; reflexivity).
  rewrite forallb_forall in Hall.
  assert (Hin : In level (map Z.of_nat (seq 0 256))).
  { apply in_map_iff. exists (Z.to_nat level). split; [lia|].
    apply in_seq. lia. }
  specialize (Hall level Hin).
  destruct (int16 (slice ("#000000" ++ format level) 7 9)) as [m|e];
    [|discriminate Hall].
  exists m. split; [reflexivity|].
  apply Bool.eqb_prop in Hall. rewrite <- Z.eqb_eq, <- Z.ltb_lt, Hall.
  reflexivity.
Qed.

Lemma substring_app (p s : string) :
  forall n m, (n + m <= String.length p)%nat ->
              substring n m (p ++ s) = substring n m p.
Proof.
  induction p as [|c p IH]; intros n m H; cbn [String.length] in H.
  - assert (n = 0%nat) by lia. assert (m = 0%nat) by lia. subst.
    cbn. now destruct s.
  - destruct n as [|n].
    + destruct m as [|m]; [reflexivity|].
      cbn [append substring]. f_equal. apply (IH 0%nat). lia.
    + cbn [append substring]. apply IH. lia.
Qed.

Lemma slice_app (p s : string) (i j : nat) :
  (i <= j <= String.length p)%nat -> slice (p ++ s) i j = slice p i j.
Proof. intro H. unfold slice. apply substring_app. lia. Qed.

Section ColourCodec.
Context {color : ColorUtil}.
Import ZwaveColorLight.

(** The payload of the one-white-channel branches. *)
Lemma turn_on_one_white_eq (w : world obj) (kw : kwargs) (T : Q) :
  ATTR_COLOR_TEMP kw = Some T ->
  white_count (_color_channels (self w)) = 1%nat ->
  ~ (HASS_COLOR_MAX - HASS_COLOR_MIN == 0)%Q ->
  build_rgbw kw w
  = (Return (Some ("#000000"
                   ++ format (white_level (_color_channels (self w)) T))%string),
     w).
Proof.
  intros HT Hone Hne. unfold build_rgbw, white_level, div. run_method.
  rewrite HT.
  destruct (Qeq_bool (HASS_COLOR_MAX - HASS_COLOR_MIN) 0) eqn:Ez.
  { apply Qeq_bool_iff in Ez. contradiction. }
  unfold white_count in Hone.
  destruct (has (_color_channels (self w)) COLOR_CHANNEL_WARM_WHITE);
    destruct (has (_color_channels (self w)) COLOR_CHANNEL_COLD_WHITE);
    try discriminate Hone; cbn [andb]; destruct w; reflexivity.
Qed.

Lemma unit_fraction (T : Q) :
  (HASS_COLOR_MIN < HASS_COLOR_MAX)%Q ->
  (HASS_COLOR_MIN <= T <= HASS_COLOR_MAX)%Q ->
  (0 <= (T - HASS_COLOR_MIN) / (HASS_COLOR_MAX - HASS_COLOR_MIN) <= 1)%Q.
Proof.
  intros Hlt [Hl Hu].
  assert (Hd : (0 < HASS_COLOR_MAX - HASS_COLOR_MIN)%Q) by lra.
  split.
  - apply Qle_shift_div_l; [assumption|]. lra.
  - apply Qle_shift_div_r; [assumption|]. lra.
Qed.

(** [update_properties] on a data string whose bytes convert: it returns,
    with the colour temperature and the rgb value of the decision table. *)
Lemma update_properties_parsed (o : obj) (r g b ww cw : Z) :
  let channels := data (_value_color_channels o) in
  let payload := data (_value_color o) in
  int16 (slice payload 1 3) = Return r ->
  int16 (slice payload 3 5) = Return g ->
  int16 (slice payload 5 7) = Return b ->
  white_read (has channels COLOR_CHANNEL_WARM_WHITE) payload 7 = Return ww ->
  white_read (has channels COLOR_CHANNEL_COLD_WHITE) payload
    (cold_index channels) = Return cw ->
  let o' := snd (update_properties o) in
  fst (update_properties o) = Return tt
  /\ _ct o' = decoded_ct channels ww cw (_ct o)
  /\ _rgb o' = decoded_rgb channels r g b ww cw
  /\ _color_channels o' = channels
  /\ super o' = snd (ZwaveDimmer.update_properties (super o))
  /\ _value_color o' = _value_color o
  /\ _value_color_channels o' = _value_color_channels o.
Proof.
  intros channels payload Hr Hg Hb Hww Hcw o'. subst channels payload o'.
  unfold update_properties, white_channel, assign_ct_and_rgb,
    ZwaveDimmer.update_properties, decoded_rgb, decoded_ct, has_rgb,
    white_read, cold_index in *.
  run_method.
  destruct (brightness_state (ZwaveDimmer._value (super o))) as [br st].
  cbv beta iota zeta.
  cbn [_value_color _value_color_channels _color_channels set_super
       set_color_channels set_rgb set_ct].
  rewrite Hr, Hg, Hb. cbv beta iota zeta.
  destruct (has _ COLOR_CHANNEL_WARM_WHITE),
           (has _ COLOR_CHANNEL_COLD_WHITE);
    cbn [Nat.add] in Hww, Hcw |- *;
    try (injection Hww as <-); try (injection Hcw as <-);
    rewrite ?Hww; cbv beta iota zeta; cbn [Nat.add];
    rewrite ?Hcw; cbv beta iota zeta; cbn [andb negb];
    destruct (has _ COLOR_CHANNEL_RED || has _ COLOR_CHANNEL_GREEN
              || has _ COLOR_CHANNEL_BLUE);
    try destruct (ww >? 0); try destruct (cw >? 0);
    cbn; repeat split.
Qed.

Lemma hex_digits_raises (s : string) :
  forall seen acc e, hex_digits seen acc s = Raise e -> e = ValueError.
Proof.
  induction s as [|c s IH]; intros seen acc e; cbn [hex_digits].
  - destruct seen; [discriminate|]. now intros [= <-].
  - destruct (hex_value c); [apply IH|].
    destruct (seen && all_space (String c s)); [discriminate|].
    now intros [= <-].
Qed.

Lemma int16_raises (s : string) (e : exn) :
  int16 s = Raise e -> e = ValueError.
Proof.
  unfold int16. destruct (lstrip s) as [|c s'].
  - apply hex_digits_raises.
  - destruct c as [[] [] [] [] [] [] [] []];
      try apply hex_digits_raises.
    destruct (hex_digits false 0 s') eqn:E; [discriminate|].
    intros [= <-]. now apply hex_digits_raises in E.
Qed.

(** Either the bytes the device declares convert, or [update_properties]
    raises [ValueError] with the colour temperature untouched. *)
Lemma update_properties_cases (o : obj) :
  let channels := data (_value_color_channels o) in
  let payload := data (_value_color o) in
  let o' := snd (update_properties o) in
  (exists r g b ww cw,
     int16 (slice payload 1 3) = Return r
     /\ int16 (slice payload 3 5) = Return g
     /\ int16 (slice payload 5 7) = Return b
     /\ white_read (has channels COLOR_CHANNEL_WARM_WHITE) payload 7
        = Return ww
     /\ white_read (has channels COLOR_CHANNEL_COLD_WHITE) payload
          (cold_index channels) = Return cw)
  \/ (fst (update_properties o) = Raise ValueError
      /\ _ct o' = _ct o
      /\ _color_channels o' = channels
      /\ super o' = snd (ZwaveDimmer.update_properties (super o))).
Proof.
  intros channels payload o'. subst channels payload o'.
  unfold update_properties, white_channel, assign_ct_and_rgb,
    ZwaveDimmer.update_properties, white_read, cold_index.
  run_method.
  destruct (brightness_state (ZwaveDimmer._value (super o))) as [br st].
  cbv beta iota zeta.
  cbn [_value_color _value_color_channels _color_channels set_super
       set_color_channels set_rgb set_ct].
  destruct (int16 (slice (data (_value_color o)) 1 3)) as [r|e] eqn:Er;
    [|right; apply int16_raises in Er; subst e; repeat split].
  destruct (int16 (slice (data (_value_color o)) 3 5)) as [g|e] eqn:Eg;
    [|right; apply int16_raises in Eg; subst e; repeat split].
  destruct (int16 (slice (data (_value_color o)) 5 7)) as [b|e] eqn:Eb;
    [|right; apply int16_raises in Eb; subst e; repeat split].
  cbv beta iota zeta.
  destruct (has _ COLOR_CHANNEL_WARM_WHITE); cbn [Nat.add].
  - destruct (int16 (slice (data (_value_color o)) 7 9)) as [ww|e] eqn:Ew;
      [|right; apply int16_raises in Ew; subst e; repeat split].
    cbv beta iota zeta.
    destruct (has _ COLOR_CHANNEL_COLD_WHITE); cbn [Nat.add].
    + destruct (int16 (slice (data (_value_color o)) 9 11)) as [cw|e] eqn:Ec;
        [|right; apply int16_raises in Ec; subst e; repeat split].
      left. exists r, g, b, ww, cw. repeat split.
    + left. exists r, g, b, ww, 0. repeat split.
  - cbv beta iota zeta.
    destruct (has _ COLOR_CHANNEL_COLD_WHITE); cbn [Nat.add].
    + destruct (int16 (slice (data (_value_color o)) 7 9)) as [cw|e] eqn:Ec;
        [|right; apply int16_raises in Ec; subst e; repeat split].
      left. exists r, g, b, 0, cw. repeat split.
    + left. exists r, g, b, 0, 0. repeat split.
Qed.

(** X11. A colour temperature in the call takes precedence: an RGB value
    given with it is ignored, the call does what it does without it. On a
    device with no white channel such a call writes no colour at all and
    leaves the cached rgb value and colour temperature as they were. *)
Theorem temperature_takes_precedence (w : world obj) (kw : kwargs) (T : Q) :
  ATTR_COLOR_TEMP kw = Some T ->
  turn_on kw w = turn_on (without_rgb kw) w
  /\ (has_white (_color_channels (self w)) = false ->
      let w' := snd (turn_on kw w) in
      fst (turn_on kw w) = Return tt
      /\ rgbw_payloads (trace w') = rgbw_payloads (trace w)
      /\ _rgb (self w') = _rgb (self w)
      /\ _ct (self w') = _ct (self w)).
Proof.
  intro HT. split.
  - rewrite !turn_on_eq. unfold build_rgbw, without_rgb, dimmer_level,
      requested_brightness. cbn [ATTR_BRIGHTNESS ATTR_COLOR_TEMP ATTR_RGB_COLOR].
    rewrite HT. reflexivity.
  - unfold has_white. intro Hw. apply orb_false_iff in Hw as [Hw Hc].
    rewrite turn_on_eq. unfold build_rgbw. run_method.
    rewrite HT, Hw, Hc. cbn [andb fst snd self trace].
    rewrite rgbw_payloads_app. cbn. rewrite app_nil_r. repeat split.
Qed.

(** X12. With exactly one white channel and a target within the range of
    the host ([HASS_COLOR_MIN] below [HASS_COLOR_MAX]), the channel value
    [turn_on] writes is between 0 and 255; the lowest target gives 0 on
    warm white and 255 on cold white, the highest target the reverse. *)
Theorem one_white_level_in_range (w : world obj) (kw : kwargs) (T : Q) :
  ATTR_COLOR_TEMP kw = Some T ->
  white_count (_color_channels (self w)) = 1%nat ->
  (HASS_COLOR_MIN < HASS_COLOR_MAX)%Q ->
  (HASS_COLOR_MIN <= T <= HASS_COLOR_MAX)%Q ->
  let warm := has (_color_channels (self w)) COLOR_CHANNEL_WARM_WHITE in
  exists level,
    rgbw_payloads (trace (snd (turn_on kw w)))
    = (rgbw_payloads (trace w) ++ [("#000000" ++ format level)%string])%list
    /\ 0 <= level <= 255
    /\ ((T == HASS_COLOR_MIN)%Q -> level = if warm then 0 else 255)
    /\ ((T == HASS_COLOR_MAX)%Q -> level = if warm then 255 else 0).
Proof.
  intros HT Hone Hlt HTr warm.
  assert (Hne : ~ (HASS_COLOR_MAX - HASS_COLOR_MIN == 0)%Q) by lra.
  exists (white_level (_color_channels (self w)) T).
  rewrite turn_on_eq, (turn_on_one_white_eq w kw T HT Hone Hne).
  cbn [snd trace]. rewrite rgbw_payloads_app. cbn.
  split; [reflexivity|].
  pose proof (unit_fraction T Hlt HTr) as [Hq0 Hq1].
  unfold white_level. fold warm.
  set (q := ((T - HASS_COLOR_MIN) / (HASS_COLOR_MAX - HASS_COLOR_MIN))%Q) in *.
  split; [|split].
  - destruct warm; apply int_between; try lia;
      change (inject_Z 0) with 0%Q; change (inject_Z 255) with 255%Q; lra.
  - intro E.
    assert (Eq : (q == 0)%Q).
    { subst q. rewrite E. field. lra. }
    destruct warm.
    + rewrite (int_comp _ 0); [reflexivity|]. rewrite Eq. reflexivity.
    + rewrite (int_comp _ 255); [reflexivity|]. rewrite Eq. reflexivity.
  - intro E.
    assert (Eq : (q == 1)%Q).
    { subst q. rewrite E. field. lra. }
    destruct warm.
    + rewrite (int_comp _ 255); [reflexivity|]. rewrite Eq. reflexivity.
    + rewrite (int_comp _ 0); [reflexivity|]. rewrite Eq. reflexivity.
Qed.


(** X14. The only exception of [update_properties] is [ValueError]; when
    it is raised the colour temperature is the one before the call, while
    the capability bits and the brightness and state of the dimmer are
    already those of the values. *)
Theorem update_properties_raises (o : obj) (e : exn) :
  fst (update_properties o) = Raise e ->
  let o' := snd (update_properties o) in
  e = ValueError
  /\ _ct o' = _ct o
  /\ _color_channels o' = data (_value_color_channels o)
  /\ (ZwaveDimmer._brightness (super o'), ZwaveDimmer._state (super o'))
     = brightness_state (ZwaveDimmer._value (super o)).
Proof.
  intros Hraise o'. subst o'.
  destruct (update_properties_cases o)
    as [(r & g & b & ww & cw & Hr & Hg & Hb & Hw & Hc)
       |(Hv & Hct & Hch & Hsuper)].
  - pose proof (proj1 (update_properties_parsed o r g b ww cw
                         Hr Hg Hb Hw Hc)). congruence.
  - split; [congruence|]. split; [exact Hct|]. split; [exact Hch|].
    rewrite Hsuper. unfold ZwaveDimmer.update_properties. run_method.
    now destruct (brightness_state (ZwaveDimmer._value (super o))).
Qed.

(** X15. With exactly one white channel, a white byte between 0 and 255
    decodes to a colour temperature within the range of the host, rising
    with the byte on warm white and falling on cold white, and the rgb
    value reported is derived from that temperature, never the RGB bytes of
    the data string. *)
Theorem decode_one_white (o : obj) (r g b white : Z) :
  let channels := data (_value_color_channels o) in
  let payload := data (_value_color o) in
  white_count channels = 1%nat ->
  int16 (slice payload 1 3) = Return r ->
  int16 (slice payload 3 5) = Return g ->
  int16 (slice payload 5 7) = Return b ->
  int16 (slice payload 7 9) = Return white ->
  0 <= white <= 255 ->
  (HASS_COLOR_MIN <= HASS_COLOR_MAX)%Q ->
  let o' := snd (update_properties o) in
  let span := (HASS_COLOR_MAX - HASS_COLOR_MIN)%Q in
  exists ct,
    fst (update_properties o) = Return tt
    /\ color_temp o' = Some ct
    /\ (HASS_COLOR_MIN <= ct <= HASS_COLOR_MAX)%Q
    /\ (has channels COLOR_CHANNEL_WARM_WHITE = true ->
        ct = (HASS_COLOR_MIN + span * (inject_Z white / 255))%Q)
    /\ (has channels COLOR_CHANNEL_COLD_WHITE = true ->
        ct = (HASS_COLOR_MIN + span * ((255 - inject_Z white) / 255))%Q)
    /\ rgb_color o'
       = if has_rgb channels then Some (ct_to_rgb ct) else None.
Proof.
  intros channels payload Hone Hr Hg Hb Hwhite Hrange Hle o' span.
  subst o' span.
  assert (Hq : (0 <= inject_Z white <= 255)%Q).
  { split; [change 0%Q with (inject_Z 0)|change 255%Q with (inject_Z 255)];
      rewrite <- Zle_Qle; lia. }
  assert (Hfrac : (0 <= inject_Z white / 255 <= 1)%Q).
  { split; [apply Qle_shift_div_l|apply Qle_shift_div_r];
      try reflexivity; lra. }
  assert (Hfrac' : (0 <= (255 - inject_Z white) / 255 <= 1)%Q).
  { split; [apply Qle_shift_div_l|apply Qle_shift_div_r];
      try reflexivity; lra. }
  unfold white_count in Hone. fold channels in Hone.
  destruct (has channels COLOR_CHANNEL_WARM_WHITE) eqn:Ew;
    destruct (has channels COLOR_CHANNEL_COLD_WHITE) eqn:Ec;
    try discriminate Hone.
  - assert (Hw : white_read (has channels COLOR_CHANNEL_WARM_WHITE) payload 7
                 = Return white) by (rewrite Ew; exact Hwhite).
    assert (Hc : white_read (has channels COLOR_CHANNEL_COLD_WHITE) payload
                   (cold_index channels) = Return 0) by (rewrite Ec; reflexivity).
    destruct (update_properties_parsed o r g b white 0 Hr Hg Hb Hw Hc)
      as (Hret & Hct & Hrgb & _).
    fold channels in Hct, Hrgb. unfold decoded_rgb, decoded_ct in Hct, Hrgb.
    rewrite Ew, Ec in Hct, Hrgb. cbn [andb] in Hct, Hrgb.
    eexists. split; [exact Hret|]. split; [exact Hct|].
    split; [|split; [reflexivity|split; [discriminate|exact Hrgb]]].
    nra.
  - assert (Hw : white_read (has channels COLOR_CHANNEL_WARM_WHITE) payload 7
                 = Return 0) by (rewrite Ew; reflexivity).
    assert (Hc : white_read (has channels COLOR_CHANNEL_COLD_WHITE) payload
                   (cold_index channels) = Return white).
    { unfold cold_index. fold channels. rewrite Ew, Ec. exact Hwhite. }
    destruct (update_properties_parsed o r g b 0 white Hr Hg Hb Hw Hc)
      as (Hret & Hct & Hrgb & _).
    fold channels in Hct, Hrgb. unfold decoded_rgb, decoded_ct in Hct, Hrgb.
    rewrite Ew, Ec in Hct, Hrgb. cbn [andb] in Hct, Hrgb.
    eexists. split; [exact Hret|]. split; [exact Hct|].
    split; [|split; [discriminate|split; [reflexivity|exact Hrgb]]].
    nra.
Qed.

Lemma white_count_cases (channels : Z) :
  (7 + 2 * white_count channels
   = if has channels COLOR_CHANNEL_COLD_WHITE
     then cold_index channels + 2
     else if has channels COLOR_CHANNEL_WARM_WHITE then 9 else 7)%nat.
Proof.
  unfold white_count, cold_index.
  destruct (has channels COLOR_CHANNEL_WARM_WHITE),
           (has channels COLOR_CHANNEL_COLD_WHITE); reflexivity.
Qed.

(** X16. Characters after the bytes of the declared channels are not
    looked at: a data string that decodes gives the same colour
    temperature and rgb value with anything appended to it. *)
Theorem decode_ignores_trailing (o : obj) (p s : string) :
  let channels := data (_value_color_channels o) in
  (7 + 2 * white_count channels <= String.length p)%nat ->
  let o1 := set_color_data p o in
  let o2 := set_color_data (p ++ s) o in
  fst (update_properties o1) = Return tt ->
  fst (update_properties o2) = Return tt
  /\ color_temp (snd (update_properties o2))
     = color_temp (snd (update_properties o1))
  /\ rgb_color (snd (update_properties o2))
     = rgb_color (snd (update_properties o1)).
Proof.
  intros channels Hlen o1 o2 Hret.
  destruct (update_properties_cases o1)
    as [(r & g & b & ww & cw & Hr & Hg & Hb & Hw & Hc)|(Hraise & _)];
    [|congruence].
  cbn [o1 set_color_data _value_color _value_color_channels data]
    in Hr, Hg, Hb, Hw, Hc. fold channels in Hw, Hc.
  rewrite white_count_cases in Hlen. fold channels in Hlen.
  assert (Hw2 : white_read (has channels COLOR_CHANNEL_WARM_WHITE) (p ++ s) 7
                = Return ww).
  { unfold white_read in *. unfold cold_index in Hlen.
    destruct (has channels COLOR_CHANNEL_WARM_WHITE); [|exact Hw].
    rewrite slice_app; [exact Hw|].
    destruct (has channels COLOR_CHANNEL_COLD_WHITE); lia. }
  assert (Hc2 : white_read (has channels COLOR_CHANNEL_COLD_WHITE) (p ++ s)
                  (cold_index channels) = Return cw).
  { unfold white_read in *.
    destruct (has channels COLOR_CHANNEL_COLD_WHITE); [|exact Hc].
    rewrite slice_app; [exact Hc|]. lia. }
  assert (Hlen7 : (7 <= String.length p)%nat).
  { unfold cold_index in Hlen.
    destruct (has channels COLOR_CHANNEL_COLD_WHITE),
             (has channels COLOR_CHANNEL_WARM_WHITE); lia. }
  destruct (update_properties_parsed o1 r g b ww cw Hr Hg Hb Hw Hc)
    as (_ & Hct1 & Hrgb1 & _).
  destruct (update_properties_parsed o2 r g b ww cw)
    as (Hret2 & Hct2 & Hrgb2 & _);
    try (cbn [o2 set_color_data _value_color _value_color_channels data];
         rewrite ?slice_app by lia; assumption).
  split; [exact Hret2|]. unfold color_temp, rgb_color.
  rewrite Hct1, Hct2, Hrgb1, Hrgb2. split; reflexivity.
Qed.

(** X17. Round trip with both white channels: the payload [turn_on]
    writes for a colour temperature, read by [update_properties], decodes
    to the colour temperature [turn_on] cached. *)
Theorem two_white_round_trip (w : world obj) (kw : kwargs) (T : Q) :
  ATTR_COLOR_TEMP kw = Some T ->
  let channels := _color_channels (self w) in
  data (_value_color_channels (self w)) = channels ->
  has channels COLOR_CHANNEL_WARM_WHITE = true ->
  has channels COLOR_CHANNEL_COLD_WHITE = true ->
  let w' := snd (turn_on kw w) in
  exists payload ct,
    rgbw_payloads (trace w') = (rgbw_payloads (trace w) ++ [payload])%list
    /\ _ct (self w') = Some ct
    /\ let o := set_color_data payload (self w') in
       fst (update_properties o) = Return tt
       /\ color_temp (snd (update_properties o)) = Some ct
       /\ rgb_color (snd (update_properties o))
          = if has_rgb channels then Some (ct_to_rgb ct) else None.
Proof.
  intros HT channels Hch Hw Hc w'. subst w'.
  exists (if gt T TEMP_MID_HASS then "#000000FF00" else "#00000000FF"),
         (if gt T TEMP_MID_HASS then TEMP_WARM_HASS else TEMP_COLD_HASS).
  rewrite turn_on_eq. unfold build_rgbw. run_method.
  fold channels. rewrite HT, Hw, Hc. cbn [andb].
  destruct (gt T TEMP_MID_HASS); cbn [fst snd self trace];
    rewrite rgbw_payloads_app;
    (split; [reflexivity|]); (split; [reflexivity|]).
  - cbv zeta. set (o := set_color_data _ _).
    assert (H1 : white_read (has (data (_value_color_channels o))
                               COLOR_CHANNEL_WARM_WHITE)
                   (data (_value_color o)) 7 = Return 255)
      by (cbn [o set_color_data set_super set_ct _value_color self with_self
               _value_color_channels data]; now rewrite Hch, Hw).
    assert (H2 : white_read (has (data (_value_color_channels o))
                               COLOR_CHANNEL_COLD_WHITE)
                   (data (_value_color o))
                   (cold_index (data (_value_color_channels o))) = Return 0)
      by (cbn [o set_color_data set_super set_ct _value_color self with_self
               _value_color_channels data]; unfold cold_index;
          now rewrite Hch, Hw, Hc).
    destruct (update_properties_parsed o 0 0 0 255 0
                eq_refl eq_refl eq_refl H1 H2) as (Hret & Hct & Hrgb & _).
    cbn [o set_color_data set_super set_ct _value_color_channels _ct
         self with_self] in Hct, Hrgb.
    rewrite Hch in Hct, Hrgb. unfold decoded_rgb, decoded_ct in Hct, Hrgb.
    rewrite Hw, Hc in Hct, Hrgb. cbn in Hct, Hrgb.
    split; [exact Hret|]. split; [exact Hct|exact Hrgb].
  - cbv zeta. set (o := set_color_data _ _).
    assert (H1 : white_read (has (data (_value_color_channels o))
                               COLOR_CHANNEL_WARM_WHITE)
                   (data (_value_color o)) 7 = Return 0)
      by (cbn [o set_color_data set_super set_ct _value_color self with_self
               _value_color_channels data]; now rewrite Hch, Hw).
    assert (H2 : white_read (has (data (_value_color_channels o))
                               COLOR_CHANNEL_COLD_WHITE)
                   (data (_value_color o))
                   (cold_index (data (_value_color_channels o))) = Return 255)
      by (cbn [o set_color_data set_super set_ct _value_color self with_self
               _value_color_channels data]; unfold cold_index;
          now rewrite Hch, Hw, Hc).
    destruct (update_properties_parsed o 0 0 0 0 255
                eq_refl eq_refl eq_refl H1 H2) as (Hret & Hct & Hrgb & _).
    cbn [o set_color_data set_super set_ct _value_color_channels _ct
         self with_self] in Hct, Hrgb.
    rewrite Hch in Hct, Hrgb. unfold decoded_rgb, decoded_ct in Hct, Hrgb.
    rewrite Hw, Hc in Hct, Hrgb. cbn in Hct, Hrgb.
    split; [exact Hret|]. split; [exact Hct|exact Hrgb].
Qed.

(** X18. Round trip of RGB: on a device with an RGB channel and both
    white channels or none, the payload [turn_on] writes for explicit RGB
    bytes, read by [update_properties], decodes to the same bytes; the
    colour temperature is then [TEMP_MID_HASS] with white channels and
    untouched without. *)
Theorem rgb_round_trip (w : world obj) (kw : kwargs) (r g b : Z) :
  ATTR_COLOR_TEMP kw = None ->
  ATTR_RGB_COLOR kw = Some [r; g; b] ->
  0 <= r <= 255 -> 0 <= g <= 255 -> 0 <= b <= 255 ->
  let channels := _color_channels (self w) in
  data (_value_color_channels (self w)) = channels ->
  has_rgb channels = true ->
  white_count channels <> 1%nat ->
  let w' := snd (turn_on kw w) in
  exists payload,
    rgbw_payloads (trace w') = (rgbw_payloads (trace w) ++ [payload])%list
    /\ rgb_color (self w') = Some [r; g; b]
    /\ let o := set_color_data payload (self w') in
       fst (update_properties o) = Return tt
       /\ rgb_color (snd (update_properties o)) = Some [r; g; b]
       /\ color_temp (snd (update_properties o))
          = if has_white channels then Some TEMP_MID_HASS else _ct (self w).
Proof.
  intros HT Hkw Hr Hg Hb channels Hch Hrgb Hone w'. subst w'.
  exists ("#" ++ hex2 r ++ hex2 g ++ hex2 b ++ "0000").
  rewrite turn_on_eq. unfold build_rgbw. run_method.
  rewrite HT, Hkw. cbn [fst snd self trace map String.concat].
  rewrite !format_02x_byte by assumption.
  rewrite rgbw_payloads_app.
  split; [reflexivity|]. split; [reflexivity|].
  cbv zeta. set (o := set_color_data _ _).
  assert (Ech : data (_value_color_channels o) = channels) by exact Hch.
  assert (Ep : data (_value_color o)
               = "#" ++ hex2 r ++ hex2 g ++ hex2 b ++ "0000") by reflexivity.
  assert (H1 : white_read (has (data (_value_color_channels o))
                             COLOR_CHANNEL_WARM_WHITE)
                 (data (_value_color o)) 7 = Return 0).
  { rewrite Ech, Ep. unfold white_read.
    destruct (has channels COLOR_CHANNEL_WARM_WHITE); reflexivity. }
  assert (H2 : white_read (has (data (_value_color_channels o))
                             COLOR_CHANNEL_COLD_WHITE)
                 (data (_value_color o))
                 (cold_index (data (_value_color_channels o))) = Return 0).
  { rewrite Ech, Ep. unfold white_read, cold_index.
    destruct (has channels COLOR_CHANNEL_COLD_WHITE),
             (has channels COLOR_CHANNEL_WARM_WHITE); reflexivity. }
  destruct (update_properties_parsed o r g b 0 0) as (Hret & Hct & Hdec & _);
    try assumption;
    try (rewrite Ep; unfold hex2; cbn [append slice substring Nat.sub];
         now apply int16_hex2).
  rewrite Ech in Hct, Hdec. unfold decoded_rgb, decoded_ct in Hct, Hdec.
  rewrite Hrgb in Hdec. unfold white_count in Hone. unfold has_white.
  split; [exact Hret|].
  destruct (has channels COLOR_CHANNEL_WARM_WHITE),
           (has channels COLOR_CHANNEL_COLD_WHITE);
    try (exfalso; apply Hone; reflexivity);
    cbn in Hct, Hdec |- *; split; assumption.
Qed.

(** X19. No round trip with exactly one white channel: [turn_on] writes
    the channel value in decimal digits, and the two characters
    [update_properties] converts at the place of the white byte, as
    hexadecimal, give that value back only when it is below 10. *)
Theorem one_white_read_back (w : world obj) (kw : kwargs) (T : Q) :
  ATTR_COLOR_TEMP kw = Some T ->
  white_count (_color_channels (self w)) = 1%nat ->
  (HASS_COLOR_MIN < HASS_COLOR_MAX)%Q ->
  (HASS_COLOR_MIN <= T <= HASS_COLOR_MAX)%Q ->
  exists level back,
    rgbw_payloads (trace (snd (turn_on kw w)))
    = (rgbw_payloads (trace w) ++ [("#000000" ++ format level)%string])%list
    /\ int16 (slice ("#000000" ++ format level) 7 9) = Return back
    /\ (back = level <-> level < 10).
Proof.
  intros HT Hone Hlt HTr.
  assert (Hne : ~ (HASS_COLOR_MAX - HASS_COLOR_MIN == 0)%Q) by lra.
  pose (level := white_level (_color_channels (self w)) T).
  assert (Hrange : 0 <= level <= 255).
  { pose proof (unit_fraction T Hlt HTr) as [Hq0 Hq1].
    subst level. unfold white_level.
    set (q := ((T - HASS_COLOR_MIN) / (HASS_COLOR_MAX - HASS_COLOR_MIN))%Q)
      in *.
    destruct (has _ COLOR_CHANNEL_WARM_WHITE); apply int_between; try lia;
      change (inject_Z 0) with 0%Q; change (inject_Z 255) with 255%Q; lra. }
  destruct (decimal_read_as_hex level Hrange) as (back & Hback & Hiff).
  exists level, back.
  rewrite turn_on_eq, (turn_on_one_white_eq w kw T HT Hone Hne).
  cbn [snd trace]. rewrite rgbw_payloads_app. cbn [rgbw_payloads flat_map snd app].
  split; [reflexivity|]. split; assumption.
Qed.
End ColourCodec.

(** ** Creating the entities *)

Section LastMatch.
Context {D : Type} (p : ZWaveValue D -> bool).
Import ZwaveColorLight.

Lemma last_match_fold (l : list (ZWaveValue D)) :
  forall acc v,
    fold_left (fun found x => if p x then Some x else found) l acc = Some v ->
    (acc = Some v /\ Forall (fun x => p x = false) l)
    \/ exists pre post, l = (pre ++ v :: post)%list /\ p v = true
                        /\ Forall (fun x => p x = false) post.
Proof.
  induction l as [|x l IH]; intros acc v H; cbn [fold_left] in H.
  - left. split; [assumption|constructor].
  - destruct (IH _ _ H) as [[Hacc Hall]|(pre & post & Hl & Hv & Hpost)].
    + destruct (p x) eqn:Ex.
      * right. injection Hacc as <-. exists [], l. repeat split; assumption.
      * left. split; [assumption|]. now constructor.
    + right. exists (x :: pre), post. subst l. repeat split; assumption.
Qed.

Lemma last_match_none (l : list (ZWaveValue D)) :
  Forall (fun x => p x = false) l -> last_match p l = None.
Proof.
  intro H. unfold last_match. generalize (@None (ZWaveValue D)).
  induction H as [|x l Hx _ IH]; intro acc; [reflexivity|].
  cbn [fold_left]. rewrite Hx. apply IH.
Qed.

Lemma last_match_some (l : list (ZWaveValue D)) (v : ZWaveValue D) :
  last_match p l = Some v ->
  exists pre post, l = (pre ++ v :: post)%list /\ p v = true
                   /\ Forall (fun x => p x = false) post.
Proof.
  intro H. destruct (last_match_fold l None v H) as [[Hn _]|H']; [discriminate|exact H'].
Qed.
End LastMatch.

Section Init.
Context {color : ColorUtil}.
Import ZwaveColorLight.

(** [__init__] raises nothing but [ValueError]. *)
Lemma init_raises (value : ZWaveValue Z)
  (rgbbulbs : list (ZWaveValue string))
  (channel_values : list (ZWaveValue Z)) (e : exn) :
  __init__ value rgbbulbs channel_values = Raise e -> e = ValueError.
Proof.
  unfold __init__.
  destruct (last_match _ rgbbulbs) as [vc|]; [|now intros [= <-]].
  destruct (last_match _ channel_values) as [vch|]; [|now intros [= <-]].
  match goal with
  | |- context [update_properties ?x] =>
      destruct (update_properties_cases x)
        as [(r & g & b & ww & cw & Hr & Hg & Hb & Hw & Hc)|(Hraise & _)];
      [pose proof (proj1 (update_properties_parsed x r g b ww cw
                            Hr Hg Hb Hw Hc)) as Hret|];
      destruct (update_properties x) as [[[]|e'] o1]
  end; try discriminate; cbn [fst] in *; intros [= <-]; congruence.
Qed.

(** X20. [ZwaveColorLight.__init__] raises [ValueError], and nothing else,
    when no colour value has the instance of the dimmer value or when the
    node has no colour-channel value. The light it returns refers to the
    last colour value of that instance and to the last colour-channel
    value, has decoded its capability bits, and has no timer and no refresh
    in flight. *)
Theorem init_outcome (value : ZWaveValue Z)
  (rgbbulbs : list (ZWaveValue string)) (channel_values : list (ZWaveValue Z)) :
  (Forall (fun vc => instance vc <> instance value) rgbbulbs ->
   __init__ value rgbbulbs channel_values = Raise ValueError)
  /\ (channel_values = [] ->
      __init__ value rgbbulbs channel_values = Raise ValueError)
  /\ (forall e, __init__ value rgbbulbs channel_values = Raise e ->
                e = ValueError)
  /\ (forall o, __init__ value rgbbulbs channel_values = Return o ->
        instance (_value_color o) = instance value
        /\ (exists pre post,
              rgbbulbs = (pre ++ _value_color o :: post)%list
              /\ Forall (fun vc => instance vc <> instance value) post)
        /\ (exists pre,
              channel_values = (pre ++ [_value_color_channels o])%list)
        /\ _color_channels o = data (_value_color_channels o)
        /\ ZwaveDimmer._value (super o) = value
        /\ ZwaveDimmer._refreshing (super o) = false
        /\ ZwaveDimmer._timer (super o) = None).
Proof.
  unfold __init__. split; [|split; [|split]].
  - intro H. rewrite last_match_none; [reflexivity|].
    eapply Forall_impl; [|exact H]. intros vc Hvc. cbv beta.
    apply Z.eqb_neq. congruence.
  - intros ->. now destruct (last_match _ rgbbulbs).
  - intros e. apply init_raises.
  - intros o.
    destruct (last_match _ rgbbulbs) as [vc|] eqn:Ec; [|discriminate].
    destruct (last_match _ channel_values) as [vch|] eqn:Ech; [|discriminate].
    match goal with
    | |- context [update_properties ?x] =>
        pose proof (update_properties_parsed x) as Hp;
        pose proof (update_properties_cases x) as Hcases;
        destruct (update_properties x) as [[[]|e'] o1] eqn:E
    end; [|discriminate].
    intros [= <-].
    destruct Hcases
      as [(r & g & b & ww & cw & Hr & Hg & Hb & Hw & Hc)|(Hraise & _)];
      [|discriminate Hraise].
    destruct (Hp r g b ww cw Hr Hg Hb Hw Hc)
      as (_ & _ & _ & Hch & Hsuper & Hvc & Hvch).
    cbn [snd super _value_color _value_color_channels] in *.
    rewrite Hvc, Hvch, Hch, Hsuper.
    apply last_match_some in Ec as (pre & post & Hl & Hpv & Hpost).
    apply last_match_some in Ech as (pre' & post' & Hl' & _ & Hpost').
    split; [symmetry; now apply Z.eqb_eq|].
    split.
    { exists pre, post. split; [assumption|].
      eapply Forall_impl; [|exact Hpost]. intros x Hx. cbv beta in Hx.
      apply Z.eqb_neq in Hx. congruence. }
    split.
    { exists pre'. destruct post' as [|y post']; [assumption|].
      inversion Hpost'; discriminate. }
    split; [reflexivity|].
    unfold ZwaveDimmer.update_properties, ZwaveDimmer.__init__.
    destruct (brightness_state value); run_method.
    cbn [ZwaveDimmer._value]. destruct (brightness_state value).
    repeat split.
Qed.
End Init.

Section Setup.
Context {color : ColorUtil} {zwave : Platform.ZwaveConst}.
Import Platform.

(** [setup_platform] once the node and the value are found. *)
Lemma setup_platform_found info network node v :
  found info network node v ->
  setup_platform (Some network) (Some info)
  = if is_dimmer_value v then add_light node (value v) else NotAdded.
Proof.
  intros (node_id & value_id & H1 & H2 & H3 & H4).
  unfold setup_platform, is_dimmer_value. rewrite H1, H2, H3, H4.
  destruct (command_class v =? _), (String.eqb (type v) _),
           (String.eqb (genre v) _); reflexivity.
Qed.

(** X21. For a value that is found and is a user byte of the multilevel
    switch class, [setup_platform] adds exactly one entity: a plain dimmer
    when the node has no colour class, a colour light when it has one and
    [ZwaveColorLight.__init__] returns, and a plain dimmer, after a
    warning, when [__init__] raises [ValueError]. *)
Theorem setup_platform_adds info network node v :
  found info network node v ->
  is_dimmer_value v = true ->
  let init := ZwaveColorLight.__init__ (value v) (get_rgbbulbs node)
                (get_color_channel_values node) in
  let dimmer := Dimmer (ZwaveDimmer.__init__ (value v)) in
  exists e warned,
    setup_platform (Some network) (Some info) = Added e warned
    /\ (has_command_class node COMMAND_CLASS_COLOR = false ->
        e = dimmer /\ warned = false)
    /\ (has_command_class node COMMAND_CLASS_COLOR = true ->
        forall o, init = Return o -> e = ColorLight o /\ warned = false)
    /\ (has_command_class node COMMAND_CLASS_COLOR = true ->
        init = Raise ValueError -> e = dimmer /\ warned = true)
    /\ (warned = true -> e = dimmer).
Proof.
  intros Hfound Hv init dimmer.
  rewrite (setup_platform_found _ _ _ _ Hfound), Hv. unfold add_light.
  fold init.
  destruct (has_command_class node COMMAND_CLASS_COLOR).
  - destruct init as [o|e] eqn:E.
    + exists (ColorLight o), false.
      split; [reflexivity|]. split; [discriminate|].
      split; [now intros _ o' [= <-]|]. split; discriminate.
    + assert (e = ValueError) as -> by (apply (init_raises _ _ _ _ E)).
      exists dimmer, true.
      split; [reflexivity|]. split; [discriminate|].
      split; [discriminate|]. split; [now split|reflexivity].
  - exists dimmer, false.
    split; [reflexivity|]. split; [now split|].
    split; [discriminate|]. split; discriminate.
Qed.

(** X22. [setup_platform] adds nothing without discovery info or without
    a network, and nothing for a value of another command class, type or
    genre. *)
Theorem setup_platform_skips info network node v :
  setup_platform None (Some info) = NotAdded
  /\ setup_platform (Some network) None = NotAdded
  /\ setup_platform None None = NotAdded
  /\ (found info network node v ->
      command_class v <> COMMAND_CLASS_SWITCH_MULTILEVEL
      \/ type v <> TYPE_BYTE \/ genre v <> GENRE_USER ->
      setup_platform (Some network) (Some info) = NotAdded).
Proof.
  repeat split. intros Hfound Hno.
  rewrite (setup_platform_found _ _ _ _ Hfound).
  unfold is_dimmer_value.
  destruct Hno as [H|[H|H]].
  - apply Z.eqb_neq in H. now rewrite H.
  - apply String.eqb_neq in H. rewrite H. now rewrite andb_false_r.
  - apply String.eqb_neq in H. rewrite H. now rewrite andb_false_r.
Qed.

(** X23. The only exception [setup_platform] lets out is [KeyError], and
    only when the discovery info does not name a node of the network and a
    value of that node; a [ValueError] of the colour light never gets
    out. *)
Theorem setup_platform_raises NETWORK discovery_info e :
  setup_platform NETWORK discovery_info = Raised e ->
  e = KeyError
  /\ exists info network,
       discovery_info = Some info /\ NETWORK = Some network
       /\ forall node v, ~ found info network node v.
Proof.
  unfold setup_platform.
  destruct discovery_info as [info|]; [|discriminate].
  destruct NETWORK as [network|]; [|discriminate].
  destruct (dict_get String.eqb ATTR_NODE_ID info) as [node_id|] eqn:E1.
  2:{ intros [= <-]. split; [reflexivity|]. exists info, network.
      repeat split. intros node v (n & i & H1 & _). congruence. }
  destruct (dict_get Z.eqb node_id (nodes network)) as [node|] eqn:E2.
  2:{ intros [= <-]. split; [reflexivity|]. exists info, network.
      repeat split. intros node v (n & i & H1 & H2 & _). congruence. }
  destruct (dict_get String.eqb ATTR_VALUE_ID info) as [value_id|] eqn:E3.
  2:{ intros [= <-]. split; [reflexivity|]. exists info, network.
      repeat split. intros node' v (n & i & H1 & H2 & H3 & _). congruence. }
  destruct (dict_get Z.eqb value_id (values node)) as [v|] eqn:E4.
  2:{ intros [= <-]. split; [reflexivity|]. exists info, network.
      repeat split. intros node' v (n & i & H1 & H2 & H3 & H4). congruence. }
  destruct (negb _); [discriminate|].
  destruct (negb _); [discriminate|].
  destruct (negb _); [discriminate|].
  unfold add_light. destruct (has_command_class node COMMAND_CLASS_COLOR);
    [|discriminate].
  destruct (ZwaveColorLight.__init__ _ _ _) as [o|e'] eqn:E; [discriminate|].
  rewrite (init_raises _ _ _ _ E). discriminate.
Qed.
End Setup.

(** ** The further properties on concrete lights *)

Section ConcreteCodec.
Existing Instance sample_color_util.
Import ZwaveColorLight.

(** X11 on the light with RGB channels only, asked for 400 mireds and
    red at once: nothing is written. *)
Lemma temperature_takes_precedence_witness :
  let kw := {| ATTR_BRIGHTNESS := None; ATTR_COLOR_TEMP := Some 400%Q;
               ATTR_RGB_COLOR := Some [255; 0; 0] |} in
  ATTR_COLOR_TEMP kw = Some 400%Q
  /\ has_white (_color_channels (self light_rgb)) = false
  /\ turn_on kw light_rgb = turn_on (without_rgb kw) light_rgb
  /\ rgbw_payloads (trace (snd (turn_on kw light_rgb))) = []
  /\ _rgb (self (snd (turn_on kw light_rgb))) = Some [26; 43; 60].
Proof.
  intro kw.
  destruct (temperature_takes_precedence light_rgb kw 400 eq_refl)
    as (Hsame & Hnone).
  destruct (Hnone eq_refl) as (_ & Hpayloads & Hrgb & _).
  split; [reflexivity|]. split; [reflexivity|]. split; [exact Hsame|].
  split; [exact Hpayloads|exact Hrgb].
Defined.

(** X12 on the warm-white light at the highest target, 500 mireds. *)
Lemma one_white_level_in_range_witness :
  ATTR_COLOR_TEMP (kw_color_temp 500) = Some 500%Q
  /\ white_count (_color_channels (self light_warm_rgb)) = 1%nat
  /\ (HASS_COLOR_MIN < HASS_COLOR_MAX)%Q
  /\ (HASS_COLOR_MIN <= 500 <= HASS_COLOR_MAX)%Q
  /\ exists level,
       rgbw_payloads (trace (snd (turn_on (kw_color_temp 500)
                                    light_warm_rgb)))
       = [("#000000" ++ format level)%string]
       /\ level = 255.
Proof.
  assert (Hlt : (HASS_COLOR_MIN < HASS_COLOR_MAX)%Q) by reflexivity.
  assert (Hin : (HASS_COLOR_MIN <= 500 <= HASS_COLOR_MAX)%Q)
    by (split; discriminate).
  split; [reflexivity|]. split; [reflexivity|]. split; [exact Hlt|].
  split; [exact Hin|].
  destruct (one_white_level_in_range light_warm_rgb (kw_color_temp 500) 500
              eq_refl eq_refl Hlt Hin) as (level & Hp & _ & _ & Hmax).
  exists level. split; [exact Hp|]. exact (Hmax (Qeq_refl _)).
Defined.


(** X14 on a device with all five channels whose data string stops after
    the RGB bytes. *)
Lemma update_properties_raises_witness :
  let o := under_construction node_up 31 "#1A2B3C" in
  fst (update_properties o) = Raise ValueError
  /\ _ct (snd (update_properties o)) = None
  /\ _color_channels (snd (update_properties o)) = 31.
Proof.
  intro o.
  assert (H : fst (update_properties o) = Raise ValueError) by reflexivity.
  destruct (update_properties_raises o ValueError H) as (_ & Hct & Hch & _).
  split; [exact H|]. split; [exact Hct|exact Hch].
Defined.

(** X15 on warm white at byte 0x80. *)
Lemma decode_one_white_witness :
  let o := under_construction node_up 29 "#00000080" in
  white_count (data (_value_color_channels o)) = 1%nat
  /\ int16 (slice (data (_value_color o)) 7 9) = Return 128
  /\ (HASS_COLOR_MIN <= HASS_COLOR_MAX)%Q
  /\ exists ct,
       color_temp (snd (update_properties o)) = Some ct
       /\ (HASS_COLOR_MIN <= ct <= HASS_COLOR_MAX)%Q
       /\ rgb_color (snd (update_properties o)) = Some (ct_to_rgb ct).
Proof.
  intro o.
  assert (Hle : (HASS_COLOR_MIN <= HASS_COLOR_MAX)%Q) by discriminate.
  split; [reflexivity|]. split; [reflexivity|]. split; [exact Hle|].
  destruct (decode_one_white o 0 0 0 128 eq_refl eq_refl eq_refl eq_refl
              eq_refl ltac:(lia) Hle)
    as (ct & _ & Hct & Hin & _ & _ & Hrgb).
  exists ct. split; [exact Hct|]. split; [exact Hin|exact Hrgb].
Defined.

(** X16 on the payload written for RGB, read by a device with RGB
    channels only. *)
Lemma decode_ignores_trailing_witness :
  let o := under_construction node_up 28 "" in
  (7 + 2 * white_count (data (_value_color_channels o))
   <= String.length "#1A2B3C")%nat
  /\ fst (update_properties (set_color_data "#1A2B3C" o)) = Return tt
  /\ rgb_color (snd (update_properties (set_color_data "#1A2B3C0000" o)))
     = rgb_color (snd (update_properties (set_color_data "#1A2B3C" o))).
Proof.
  intro o.
  assert (Hlen : (7 + 2 * white_count (data (_value_color_channels o))
                  <= String.length "#1A2B3C")%nat) by (cbn; lia).
  assert (Hret : fst (update_properties (set_color_data "#1A2B3C" o))
                 = Return tt) by reflexivity.
  split; [exact Hlen|]. split; [exact Hret|].
  exact (proj2 (proj2 (decode_ignores_trailing o "#1A2B3C" "0000"
                         Hlen Hret))).
Defined.

(** X17 on the light with all five channels and a target of 400 mireds. *)
Lemma two_white_round_trip_witness :
  let w' := snd (turn_on (kw_color_temp 400) light_all) in
  data (_value_color_channels (self light_all))
  = _color_channels (self light_all)
  /\ exists payload ct,
       rgbw_payloads (trace w') = [payload]
       /\ _ct (self w') = Some ct
       /\ color_temp (snd (update_properties
                             (set_color_data payload (self w')))) = Some ct.
Proof.
  intro w'.
  destruct (two_white_round_trip light_all (kw_color_temp 400) 400
              eq_refl eq_refl eq_refl eq_refl)
    as (payload & ct & Hp & Hct & _ & Hdec & _).
  split; [reflexivity|]. exists payload, ct.
  split; [exact Hp|]. split; [exact Hct|exact Hdec].
Defined.

(** X18 on the light with all five channels set to red. *)
Lemma rgb_round_trip_witness :
  let w' := snd (turn_on (kw_rgb [255; 0; 0]) light_all) in
  has_rgb (_color_channels (self light_all)) = true
  /\ white_count (_color_channels (self light_all)) <> 1%nat
  /\ exists payload,
       rgbw_payloads (trace w') = [payload]
       /\ rgb_color (snd (update_properties
                            (set_color_data payload (self w'))))
          = Some [255; 0; 0].
Proof.
  intro w'.
  assert (Hone : white_count (_color_channels (self light_all)) <> 1%nat)
    by discriminate.
  destruct (rgb_round_trip light_all (kw_rgb [255; 0; 0]) 255 0 0
              eq_refl eq_refl ltac:(lia) ltac:(lia) ltac:(lia)
              eq_refl eq_refl Hone)
    as (payload & Hp & _ & _ & Hdec & _).
  split; [reflexivity|]. split; [exact Hone|].
  exists payload. split; [exact Hp|exact Hdec].
Defined.

(** X19 on the warm-white light at 327 mireds: the level 127 is written as
    [127] and its first two characters convert to 0x12 = 18. *)
Lemma one_white_read_back_witness :
  (HASS_COLOR_MIN < HASS_COLOR_MAX)%Q
  /\ (HASS_COLOR_MIN <= 327 <= HASS_COLOR_MAX)%Q
  /\ exists level back,
       rgbw_payloads (trace (snd (turn_on (kw_color_temp 327)
                                    light_warm_rgb)))
       = [("#000000" ++ format level)%string]
       /\ int16 (slice ("#000000" ++ format level) 7 9) = Return back
       /\ (back = level <-> level < 10).
Proof.
  assert (Hlt : (HASS_COLOR_MIN < HASS_COLOR_MAX)%Q) by reflexivity.
  assert (Hin : (HASS_COLOR_MIN <= 327 <= HASS_COLOR_MAX)%Q)
    by (split; discriminate).
  split; [exact Hlt|]. split; [exact Hin|].
  exact (one_white_read_back light_warm_rgb (kw_color_temp 327) 327
           eq_refl eq_refl Hlt Hin).
Defined.

(** X20 on a node with two colour values of the dimmer's instance and on a
    node with none. *)
Lemma init_outcome_witness :
  let bulbs := [color_value node_up "#000000FF00";
                color_value node_up "#1A2B3C0000"] in
  (exists o, __init__ (dimmer_value node_up 50) bulbs
               [channels_value node_up 31] = Return o
             /\ data (_value_color o) = "#1A2B3C0000")
  /\ __init__ (dimmer_value node_up 50) [] [channels_value node_up 31]
     = Raise ValueError.
Proof.
  intro bulbs.
  destruct (init_outcome (dimmer_value node_up 50) bulbs
              [channels_value node_up 31]) as (_ & _ & _ & Hret).
  destruct (init_outcome (dimmer_value node_up 50) []
              [channels_value node_up 31]) as (Hnone & _).
  split; [|exact (Hnone (Forall_nil _))].
  destruct (__init__ (dimmer_value node_up 50) bulbs
              [channels_value node_up 31]) as [o|e] eqn:E;
    [|discriminate E].
  exists o. split; [reflexivity|].
  destruct (Hret o eq_refl) as (_ & (pre & post & Hl & Hpost) & _).
  injection E as <-. reflexivity.
Defined.
End ConcreteCodec.

Section ConcreteSetup.
Existing Instance sample_color_util.
Existing Instance sample_zwave_const.
Import Platform.

Lemma found_dimmer (payload : string) :
  found (discovered 1) (sample_network payload) (color_node payload)
    (listed_dimmer 38).
Proof. exists 7, 1. repeat split. Qed.

(** X21 on a colour node with a good data string and on one whose data
    string has no white bytes: a colour light, and a dimmer after a
    warning. *)
Lemma setup_platform_adds_witness :
  is_dimmer_value (listed_dimmer 38) = true
  /\ (exists o, setup_platform (Some (sample_network "#1A2B3C0000"))
                  (Some (discovered 1)) = Added (ColorLight o) false)
  /\ setup_platform (Some (sample_network "#1A2B3C")) (Some (discovered 1))
     = Added (Dimmer (ZwaveDimmer.__init__ (dimmer_value node_up 50))) true.
Proof.
  split; [reflexivity|]. split.
  - destruct (setup_platform_adds (discovered 1)
                (sample_network "#1A2B3C0000") (color_node "#1A2B3C0000")
                (listed_dimmer 38) (found_dimmer _) eq_refl)
      as (e & warned & Hadded & _ & Hcolor & _).
    destruct (ZwaveColorLight.__init__ (value (listed_dimmer 38))
                (get_rgbbulbs (color_node "#1A2B3C0000"))
                (get_color_channel_values (color_node "#1A2B3C0000")))
      as [o|err] eqn:E; [|discriminate E].
    exists o. destruct (Hcolor eq_refl o eq_refl) as (-> & ->). exact Hadded.
  - destruct (setup_platform_adds (discovered 1)
                (sample_network "#1A2B3C") (color_node "#1A2B3C")
                (listed_dimmer 38) (found_dimmer _) eq_refl)
      as (e & warned & Hadded & _ & _ & Hfallback & _).
    destruct (Hfallback eq_refl eq_refl) as (-> & ->). exact Hadded.
Defined.

(** X22 on the value 2 of the node, which is of another command class. *)
Lemma setup_platform_skips_witness :
  found (discovered 2) (sample_network "#1A2B3C0000")
    (color_node "#1A2B3C0000") (listed_dimmer 37)
  /\ command_class (listed_dimmer 37) <> COMMAND_CLASS_SWITCH_MULTILEVEL
  /\ setup_platform (Some (sample_network "#1A2B3C0000"))
       (Some (discovered 2)) = NotAdded.
Proof.
  assert (Hfound : found (discovered 2) (sample_network "#1A2B3C0000")
                     (color_node "#1A2B3C0000") (listed_dimmer 37))
    by (exists 7, 2; repeat split).
  assert (Hcc : command_class (listed_dimmer 37)
                <> COMMAND_CLASS_SWITCH_MULTILEVEL) by discriminate.
  split; [exact Hfound|]. split; [exact Hcc|].
  exact (proj2 (proj2 (proj2 (setup_platform_skips (discovered 2)
           (sample_network "#1A2B3C0000") (color_node "#1A2B3C0000")
           (listed_dimmer 37)))) Hfound (or_introl Hcc)).
Defined.

(** X23 on a value id the node does not have. *)
Lemma setup_platform_raises_witness :
  setup_platform (Some (sample_network "#1A2B3C0000")) (Some (discovered 3))
  = Raised KeyError
  /\ forall node v,
       ~ found (discovered 3) (sample_network "#1A2B3C0000") node v.
Proof.
  assert (H : setup_platform (Some (sample_network "#1A2B3C0000"))
                (Some (discovered 3)) = Raised KeyError) by reflexivity.
  split; [exact H|].
  destruct (setup_platform_raises _ _ _ H)
    as (_ & info & network & Hinfo & Hnet & Hnone).
  injection Hinfo as <-. injection Hnet as <-. exact Hnone.
Defined.
End ConcreteSetup.
